(** * Web Activity Logger: the browser extension, verified

    A shallow embedding of the extension's two scripts:

    - [extension/content.js], the content script that turns DOM events
      (click, input, change, submit) into interaction records and hands
      every record to three delivery channels;
    - the background service worker, which relays the records it gets
      over runtime messaging and serves them to external consumers.

    The session timeline that consumes the three channels is not part of
    the extension; it is modelled in [Module Timeline] from its
    specification.

    JavaScript strings are sequences of code units; they are embedded as
    [string], one [ascii] per code unit (the code units below 256).
    JavaScript objects used as maps are [gmap]s keyed by strings. *)

From Stdlib Require Import ZArith Ascii String DecimalString DecimalZ
  DecimalPos Sorted.
From stdpp Require Import base option list strings gmap.

Open Scope string_scope.

(** ** JavaScript values and strings *)

(** A value of a form's data set: a string, or a [File] object, shown by
    its file name. *)
Inductive form_value :=
  | TextValue (s : string)
  | FileValue (file_name : string).

(** The values that flow through the scripts. [JDict] is a plain object
    whose values are all strings (an attribute bag); [JFormValues] is a
    plain object that holds values of a form's data set. *)
Inductive jsval :=
  | JUndefined
  | JNull
  | JNum (n : Z)
  | JStr (s : string)
  | JDict (d : gmap string string)
  | JFormValues (d : gmap string form_value).

(** ToBoolean. *)
Definition truthy (v : jsval) : bool :=
  match v with
  | JUndefined | JNull => false
  | JNum n => negb (n =? 0)%Z
  | JStr s => negb (String.eqb s "")
  | JDict _ => true
  | JFormValues _ => true
  end.

(** [a || b]. *)
Definition js_or (a b : jsval) : jsval := if truthy a then a else b.

Module JsString.

(** [s.substring(i, j)]: both indices are clamped to the length and
    swapped when they come in the wrong order. *)
Definition substring (s : string) (i j : nat) : string :=
  let len := String.length s in
  let a := Nat.min (Nat.min i j) len in
  let b := Nat.min (Nat.max i j) len in
  String.substring a (b - a) s.

(** [toLowerCase] on one code unit: A-Z, and the Latin-1 capitals
    U+00C0..U+00DE except the multiplication sign U+00D7. *)
Definition lower_char (c : ascii) : ascii :=
  let n := nat_of_ascii c in
  if (65 <=? n)%nat && (n <=? 90)%nat then ascii_of_nat (n + 32)
  else if (192 <=? n)%nat && (n <=? 222)%nat && negb (n =? 215)%nat
       then ascii_of_nat (n + 32)
  else c.

Fixpoint toLowerCase (s : string) : string :=
  match s with
  | EmptyString => EmptyString
  | String c s' => String (lower_char c) (toLowerCase s')
  end.

(** The white space of [trim] and of the regular expression class [\s]:
    TAB, LF, VT, FF, CR, SPACE and NO-BREAK SPACE. *)
Definition is_space (c : ascii) : bool :=
  let n := nat_of_ascii c in
  ((9 <=? n)%nat && (n <=? 13)%nat) || (n =? 32)%nat || (n =? 160)%nat.

Fixpoint trimStart (s : string) : string :=
  match s with
  | EmptyString => EmptyString
  | String c s' => if is_space c then trimStart s' else s
  end.

Fixpoint trimEnd (s : string) : string :=
  match s with
  | EmptyString => EmptyString
  | String c s' =>
      match trimEnd s' with
      | EmptyString => if is_space c then EmptyString else String c EmptyString
      | t => String c t
      end
  end.

Definition trim (s : string) : string := trimEnd (trimStart s).

(** [s.split(/\s+/)]: the pieces between maximal runs of white space.
    [in_run] tells that the previous code unit was white space. The
    result is never empty: the empty string splits into one empty piece. *)
Fixpoint split_spaces_from (in_run : bool) (s : string) : list string :=
  match s with
  | EmptyString => [EmptyString]
  | String c s' =>
      if is_space c then
        if in_run then split_spaces_from true s'
        else EmptyString :: split_spaces_from true s'
      else
        match split_spaces_from false s' with
        | [] => [String c EmptyString]
        | piece :: pieces => String c piece :: pieces
        end
  end.

Definition split_spaces (s : string) : list string := split_spaces_from false s.

(** [pieces.join(sep)]. *)
Definition join (sep : string) (pieces : list string) : string :=
  String.concat sep pieces.

(** A string is truthy when it is not empty. *)
Definition nonempty (s : string) : bool := negb (String.eqb s "").

(** Template interpolation of an integer. *)
Definition of_int (n : Z) : string := NilZero.string_of_int (Z.to_int n).

End JsString.

(** An object literal: the properties are defined from left to right, a
    later one replacing an earlier one of the same name. A spread
    [...extra] at the end of a literal is [extra]'s properties appended. *)
Definition obj_literal (props : list (string * jsval)) : gmap string jsval :=
  foldl (fun o kv => <[kv.1 := kv.2]> o) ∅ props.

(** ** Effects: state and exceptions *)

(** The scripts mutate script-level state and guard some calls with
    [try]/[catch]. A computation takes the state and either returns with a
    new state or throws with the state it had reached. *)
Module Eff.

Inductive outcome (S A : Type) :=
  | Returned (a : A) (s : S)
  | Thrown (err : string) (s : S).
Arguments Returned {S A} a s.
Arguments Thrown {S A} err s.

Definition M (S A : Type) : Type := S -> outcome S A.

Definition ret {S A} (a : A) : M S A := fun s => Returned a s.

Definition bind {S A B} (c : M S A) (k : A -> M S B) : M S B :=
  fun s =>
    match c s with
    | Returned a s' => k a s'
    | Thrown err s' => Thrown err s'
    end.

Definition throw {S A} (err : string) : M S A := fun s => Thrown err s.

(** [try { body } catch (e) { handler(e) }] *)
Definition try_catch {S A} (body : M S A) (handler : string -> M S A) : M S A :=
  fun s =>
    match body s with
    | Returned a s' => Returned a s'
    | Thrown err s' => handler err s'
    end.

Definition get {S} : M S S := fun s => Returned s s.
Definition modify {S} (f : S -> S) : M S unit := fun s => Returned tt (f s).

(** [if (c) { body }] *)
Definition when {S} (c : bool) (body : M S unit) : M S unit :=
  if c then body else ret tt.

Definition final_state {S A} (o : outcome S A) : S :=
  match o with
  | Returned _ s => s
  | Thrown _ s => s
  end.

Definition returns {S A} (o : outcome S A) : bool :=
  match o with
  | Returned _ _ => true
  | Thrown _ _ => false
  end.

End Eff.

Notation "'do' x <- c ; k" := (Eff.bind c (fun x => k))
  (at level 10, x name, c at level 100, k at level 200).
Notation "c ;; k" := (Eff.bind c (fun _ => k))
  (at level 100, k at level 200, right associativity).

(** ** The DOM as the content script sees it *)

(** [element.className] is a string on HTML elements and an
    [SVGAnimatedString] object on SVG elements. *)
Inductive class_prop :=
  | ClassString (s : string)
  | ClassObject.

(** A child of the parent element, through what the selector code reads
    of it: its identity and its tag name. *)
Record child := mkChild {
  child_node : nat;
  child_tagName : string;
}.

Record parent := mkParent {
  children : list child;
}.

(** An element node. [node] is the identity of the object (what [===] and
    [indexOf] compare); the other fields are the properties and attributes
    the content script reads: [elId], [elType] and [elValue] are
    [element.id], [element.type] and [element.value]. [None] stands for
    [undefined]. *)
Record element := mkElement {
  node : nat;
  tagName : string;
  elId : string;
  className : class_prop;
  attributes : gmap string string;
  innerText : option string;
  elType : option string;
  elValue : jsval;
  parentElement : option parent;
}.

(** An element that matters to a submit: a descendant of the form, or a
    control outside it that names the form in its [form] attribute.
    [field_name] is its [name] attribute ([None] when it has none) and
    [field_type] its [type] property. [field_entries] are the entries the
    browser puts into the form's data set for this element: none for an
    element that does not submit (not a control, disabled, a check box that
    is not checked, a control of another form, a control without a name),
    one under its name for most controls, several for a multiple select or
    several files, one more under the name its [dirname] attribute gives,
    and whatever a custom element submits. [field_inside] tells that the
    element is a descendant of the form. *)
Record field := mkField {
  field_name : option string;
  field_type : option string;
  field_entries : list (string * form_value);
  field_inside : bool;
}.

(** A form element with the elements that matter to its submit, in tree
    order. *)
Record form := mkForm {
  form_element : element;
  members : list field;
}.

(** [new FormData(form).entries()]: the entries of the form's elements, in
    tree order. *)
Definition formData_entries (f : form) : list (string * form_value) :=
  flat_map field_entries (members f).

(** What the selector text [[name="] + name + ["]]] means. The name is
    not escaped, so it is read as the body of a CSS string:
    - [Equals v]: the text is a valid test of the [name] attribute
      against the string [v];
    - [Invalid]: the text is not a selector, [querySelector] throws a
      [SyntaxError];
    - [Beyond]: the text has to be read by the browser's selector engine
      (hexadecimal escapes, a line continuation, a NUL, a backslash that
      escapes the closing quote, or a closed string followed by more
      selector text). *)
Inductive name_selector :=
  | Equals (v : string)
  | Invalid
  | Beyond.

(** LINE FEED, FORM FEED and CARRIAGE RETURN: the line breaks of CSS. *)
Definition is_css_newline (c : ascii) : bool :=
  let n := nat_of_ascii c in
  (n =? 10)%nat || (n =? 12)%nat || (n =? 13)%nat.

Definition is_hex_digit (c : ascii) : bool :=
  let n := nat_of_ascii c in
  ((48 <=? n)%nat && (n <=? 57)%nat)
  || ((65 <=? n)%nat && (n <=? 70)%nat)
  || ((97 <=? n)%nat && (n <=? 102)%nat).

(** After a double quote inside the name has closed the string, the
    attribute selector can only go on with white space, a comment, the
    modifier [i] or [s] (maybe written with an escape) or the closing
    bracket. Anything else, the template's own quote included, is a syntax
    error. *)
Definition after_closed_string (rest : string) : name_selector :=
  match rest with
  | EmptyString => Invalid
  | String c _ =>
      let n := nat_of_ascii c in
      if (n =? 9)%nat || (n =? 32)%nat || is_css_newline c
         || (n =? 93)%nat || (n =? 47)%nat || (n =? 92)%nat
         || (n =? 105)%nat || (n =? 73)%nat || (n =? 115)%nat || (n =? 83)%nat
      then Beyond
      else Invalid
  end.

Definition prepend (c : ascii) (r : name_selector) : name_selector :=
  match r with
  | Equals v => Equals (String c v)
  | other => other
  end.

(** The name read as the body of a CSS string that the template's closing
    quote ends: a double quote closes the string early, a line break makes
    a bad string, a backslash before a character that is neither a
    hexadecimal digit nor a line break stands for that character. *)
Fixpoint quoted_name (name : string) : name_selector :=
  match name with
  | EmptyString => Equals EmptyString
  | String c rest =>
      let n := nat_of_ascii c in
      if (n =? 34)%nat then after_closed_string rest
      else if is_css_newline c then Invalid
      else if (n =? 0)%nat then Beyond
      else if (n =? 92)%nat then
        match rest with
        | EmptyString => Beyond
        | String e rest' =>
            if is_css_newline e || is_hex_digit e || (nat_of_ascii e =? 0)%nat
            then Beyond
            else prepend e (quoted_name rest')
        end
      else prepend c (quoted_name rest)
  end.

Definition double_quote : string := String (ascii_of_nat 34) EmptyString.

(** The selector text the template builds. *)
Definition name_selector_text (name : string) : string :=
  "[name=" ++ double_quote ++ name ++ double_quote ++ "]".

(** The first descendant of the form, in tree order, whose [name]
    attribute is [v]. *)
Definition first_named (f : form) (v : string) : option field :=
  List.find
    (fun d =>
       field_inside d &&
       match field_name d with
       | Some n => String.eqb n v
       | None => false
       end)
    (members f).

(** What [form.querySelector] gives for the selector text built from
    [name]: [None] when it throws, [Some None] for the result [null].
    [selector_engine] stands for the browser's engine on the texts that
    are [Beyond]. *)
Definition query_outcome (selector_engine : string -> form -> option (option field))
    (f : form) (name : string) : option (option field) :=
  match quoted_name name with
  | Equals v => Some (first_named f v)
  | Invalid => None
  | Beyond => selector_engine (name_selector_text name) f
  end.

(** [values[name] = v] on an object created by [{}]: an assignment to
    [__proto__] goes to the inherited setter and makes no property. *)
Definition assign (name : string) (v : form_value)
    (values : gmap string form_value) : gmap string form_value :=
  if String.eqb name "__proto__" then values else <[name := v]> values.

(** A runtime message: [message.type] and, where there is one,
    [message.data]. *)
Record message := mkMessage {
  msg_type : string;
  msg_data : option (gmap string jsval);
}.

Inductive console_line :=
  | ConsoleDebug (text : string) (err : string)
  | ConsoleLog (text : string).

(** What the content script reads and changes outside its own variables. *)
Record page := mkPage {
  clock : Z;                         (* Date.now() *)
  location_href : string;            (* window.location.href *)
  runtime_valid : bool;              (* false: chrome.runtime.sendMessage throws *)
  outbox : list message;             (* messages handed to runtime messaging *)
  console : list console_line;
  webLoggerEvents : option (list (gmap string jsval));
                                     (* window.__webLoggerEvents__, None: undefined *)
}.

Module Content.

Definition MAX_INNER_TEXT_LENGTH : nat := 100.

(** [sameTagSiblings.indexOf(element)]: the index of the first entry that
    is the element itself, -1 when there is none. *)
Fixpoint indexOf (l : list child) (x : nat) : Z :=
  match l with
  | [] => (-1)%Z
  | c :: l' =>
      if Nat.eqb (child_node c) x then 0%Z
      else
        let i := indexOf l' x in
        if (i <? 0)%Z then (-1)%Z else (i + 1)%Z
  end.

(** [className.trim().split(/\s+/).filter(c => c)] *)
Definition class_tokens (cls : string) : list string :=
  List.filter JsString.nonempty (JsString.split_spaces (JsString.trim cls)).

(** [generateSelector]: [None] is the [null] result. The argument is
    [None] for a null target. *)
Definition generateSelector (target : option element) : option string :=
  match target with
  | None => None
  | Some element =>
      if negb (JsString.nonempty (tagName element)) then None
      else
        let tag := JsString.toLowerCase (tagName element) in
        (* Priority 1: ID selector *)
        if JsString.nonempty (elId element) then Some ("#" ++ elId element)
        else
          (* Priority 2: tag + class selector *)
          let by_class :=
            match className element with
            | ClassString cls =>
                if JsString.nonempty cls then
                  let classes := class_tokens cls in
                  if (0 <? List.length classes)%nat
                  then Some (tag ++ "." ++ JsString.join "." classes)
                  else None
                else None
            | ClassObject => None
            end in
          match by_class with
          | Some sel => Some sel
          | None =>
              (* Priority 3: nth-child fallback *)
              let index :=
                match parentElement element with
                | Some p =>
                    let siblings := children p in
                    let sameTagSiblings :=
                      List.filter
                        (fun s => String.eqb (child_tagName s) (tagName element))
                        siblings in
                    (indexOf sameTagSiblings (node element) + 1)%Z
                | None => 1%Z
                end in
              Some (tag ++ ":nth-child(" ++ JsString.of_int index ++ ")")
          end
  end.

(** [getInnerText]: [element.innerText || ''], cut at the maximum. *)
Definition getInnerText (element : element) : string :=
  let text :=
    match innerText element with
    | Some t => if JsString.nonempty t then t else ""
    | None => ""
    end in
  if (MAX_INNER_TEXT_LENGTH <? String.length text)%nat
  then JsString.substring text 0 MAX_INNER_TEXT_LENGTH ++ "..."
  else text.

Definition relevantAttrs : list string :=
  ["id"; "class"; "name"; "type"; "href"; "src"; "value"; "placeholder";
   "data-testid"].

(** [getAttributes] *)
Definition getAttributes (element : element) : gmap string string :=
  foldl (fun attrs attr =>
           match attributes element !! attr with
           | Some v => <[attr := v]> attrs
           | None => attrs
           end)
        ∅ relevantAttrs.

(** [x.type === 'password'], for a [type] property that may be
    [undefined]. *)
Definition is_password (type : option string) : bool :=
  match type with
  | Some t => String.eqb t "password"
  | None => false
  end.

(** [getInputValue]: masks password fields. *)
Definition getInputValue (element : element) : jsval :=
  if is_password (elType element) then JNull
  else js_or (elValue element) JNull.

Definition REDACTED : string := "[REDACTED]".

Section Forms.

(** The browser's selector engine, for the selector texts that are
    [Beyond]. *)
Variable selector_engine : string -> form -> option (option field).

(** [form.querySelector(`[name="${name}"]`)] *)
Definition querySelector_name (form : form) (name : string)
  : Eff.M page (option field) :=
  match query_outcome selector_engine form name with
  | Some found => Eff.ret found
  | None => Eff.throw "SyntaxError"
  end.

(** [field && field.type === 'password'] *)
Definition is_password_field (found : option field) : bool :=
  match found with
  | Some fld => is_password (field_type fld)
  | None => false
  end.

(** The loop of [getFormValues] over the entries that are left. *)
Fixpoint assign_entries (form : form) (entries : list (string * form_value))
    (values : gmap string form_value) : Eff.M page (gmap string form_value) :=
  match entries with
  | [] => Eff.ret values
  | (name, value) :: rest =>
      (* Check if this is a password field *)
      do field <- querySelector_name form name;
      assign_entries form rest
        (if is_password_field field
         then assign name (TextValue REDACTED) values
         else assign name value values)
  end.

(** [getFormValues] *)
Definition getFormValues (form : form) : Eff.M page (gmap string form_value) :=
  assign_entries form (formData_entries form) ∅.

End Forms.

Definition selector_value (sel : option string) : jsval :=
  match sel with
  | Some s => JStr s
  | None => JNull
  end.

(** [createLogEntry], reading the clock and the location of the page. *)
Definition createLogEntry (p : page) (eventType : string) (element : element)
    (extraData : list (string * jsval)) : gmap string jsval :=
  obj_literal
    ([ ("timestamp", JNum (clock p));
       ("type", JStr "interaction");
       ("event", JStr eventType);
       ("selector", selector_value (generateSelector (Some element)));
       ("tagName", JStr (tagName element));
       ("attributes", JDict (getAttributes element));
       ("value", JNull);
       ("innerText", JStr (getInnerText element));
       ("url", JStr (location_href p)) ]
     ++ extraData).

Section Delivery.

(** The browser's selector engine, as in [getFormValues]. *)
Variable selector_engine : string -> form -> option (option field).

(** [JSON.stringify] on a log entry. *)
Variable JSON_stringify : gmap string jsval -> string.

(** [chrome.runtime.sendMessage(m)]: throws once the extension context
    is invalidated. *)
Definition runtime_sendMessage (m : message) : Eff.M page unit :=
  fun p =>
    if runtime_valid p
    then Eff.Returned tt
           (mkPage (clock p) (location_href p) (runtime_valid p)
                   (outbox p ++ [m]) (console p) (webLoggerEvents p))
    else Eff.Thrown "Extension context invalidated." p.

Definition console_write (l : console_line) : Eff.M page unit :=
  Eff.modify (fun p =>
    mkPage (clock p) (location_href p) (runtime_valid p)
           (outbox p) (console p ++ [l]) (webLoggerEvents p)).

Definition set_webLoggerEvents (b : list (gmap string jsval)) : Eff.M page unit :=
  Eff.modify (fun p =>
    mkPage (clock p) (location_href p) (runtime_valid p)
           (outbox p) (console p) (Some b)).

(** [window.__webLoggerEvents__.push(e)] *)
Definition webLoggerEvents_push (e : gmap string jsval) : Eff.M page unit :=
  do p <- Eff.get;
  match webLoggerEvents p with
  | Some b => set_webLoggerEvents (b ++ [e])
  | None => Eff.throw "Cannot read properties of undefined"
  end.

Definition WEB_LOGGER_EVENT : string := "WEB_LOGGER_EVENT:".

(** [sendEvent] *)
Definition sendEvent (logEntry : gmap string jsval) : Eff.M page unit :=
  (* Send to background script *)
  Eff.try_catch
    (runtime_sendMessage (mkMessage "interaction" (Some logEntry)))
    (fun e => console_write (ConsoleDebug "Web Logger: Could not send event" e)) ;;
  (* Also log to console *)
  console_write (ConsoleLog (WEB_LOGGER_EVENT ++ JSON_stringify logEntry)) ;;
  (* And expose via window variable for polling *)
  Eff.try_catch
    (do p <- Eff.get;
     Eff.when (bool_decide (webLoggerEvents p = None)) (set_webLoggerEvents []) ;;
     webLoggerEvents_push logEntry)
    (fun _ => Eff.ret tt).

(** The handlers take the event's target. *)
Definition handleClick (target : element) : Eff.M page unit :=
  do p <- Eff.get;
  let logEntry := createLogEntry p "click" target [] in
  sendEvent logEntry.

Definition handleInput (target : element) : Eff.M page unit :=
  do p <- Eff.get;
  let logEntry :=
    createLogEntry p "input" target [("value", getInputValue target)] in
  sendEvent logEntry.

Definition handleChange (target : element) : Eff.M page unit :=
  do p <- Eff.get;
  let logEntry :=
    createLogEntry p "change" target [("value", getInputValue target)] in
  sendEvent logEntry.

(** The argument [getFormValues(form)] is worked out before
    [createLogEntry] runs: when it throws, nothing is sent. *)
Definition handleSubmit (target : form) : Eff.M page unit :=
  do formValues <- getFormValues selector_engine target;
  do p <- Eff.get;
  let logEntry :=
    createLogEntry p "submit" (form_element target)
      [("formValues", JFormValues formValues)] in
  sendEvent logEntry.

End Delivery.

End Content.

(** ** The background service worker *)

(** [sender.tab], when the message comes from a tab. *)
Record tab := mkTab {
  tab_id : jsval;
  tab_url : jsval;
}.

Record sender := mkSender {
  sender_tab : option tab;
}.

Inductive response :=
  | ResponseEvents (events : list (gmap string jsval))   (* { events } *)
  | ResponseSuccess.                                     (* { success: true } *)

(** The worker's state: its [capturedEvents] array, and what it has sent
    out: the responses given through [sendResponse] and [port.postMessage],
    and the [newInteraction] notices. [notify_valid] is false when the
    worker's own [chrome.runtime.sendMessage] throws. *)
Record worker := mkWorker {
  capturedEvents : list (gmap string jsval);
  responses : list response;
  notices : list message;
  notify_valid : bool;
}.

Module Background.

Definition set_capturedEvents (evs : list (gmap string jsval)) : Eff.M worker unit :=
  Eff.modify (fun w => mkWorker evs (responses w) (notices w) (notify_valid w)).

Definition capturedEvents_push (e : gmap string jsval) : Eff.M worker unit :=
  do w <- Eff.get; set_capturedEvents (capturedEvents w ++ [e]).

(** [sendResponse(r)] and [port.postMessage(r)] *)
Definition respond (r : response) : Eff.M worker unit :=
  Eff.modify (fun w =>
    mkWorker (capturedEvents w) (responses w ++ [r]) (notices w) (notify_valid w)).

Definition runtime_sendMessage (m : message) : Eff.M worker unit :=
  fun w =>
    if notify_valid w
    then Eff.Returned tt
           (mkWorker (capturedEvents w) (responses w) (notices w ++ [m])
                     (notify_valid w))
    else Eff.Thrown "Could not establish connection." w.

(** [sender.tab?.id] and [sender.tab?.url] *)
Definition tab_prop (proj : tab -> jsval) (s : sender) : jsval :=
  match sender_tab s with
  | Some t => proj t
  | None => JUndefined
  end.

(** The event as stored: the message's data with the tab info added. *)
Definition with_tab_info (event : gmap string jsval) (s : sender)
  : gmap string jsval :=
  <["tabUrl" := tab_prop tab_url s]> (<["tabId" := tab_prop tab_id s]> event).

(** The [chrome.runtime.onMessage] listener. It returns [true]. *)
Definition onMessage (message : message) (s : sender) : Eff.M worker bool :=
  Eff.when (String.eqb (msg_type message) "interaction")
    (match msg_data message with
     | None => Eff.throw "Cannot set properties of undefined"
     | Some data =>
         (* Add tab info *)
         let event := with_tab_info data s in
         capturedEvents_push event ;;
         (* Notify any connected external listeners *)
         Eff.try_catch
           (runtime_sendMessage (mkMessage "newInteraction" (Some event)))
           (fun _ => Eff.ret tt)
     end) ;;
  Eff.ret true.

(** The [chrome.runtime.onMessageExternal] listener. The result is
    [true] where the listener returns [true] and [false] where it falls
    off its end. *)
Definition onMessageExternal (message : message) : Eff.M worker bool :=
  if String.eqb (msg_type message) "getEvents" then
    do w <- Eff.get;
    respond (ResponseEvents (capturedEvents w)) ;;
    Eff.ret true
  else if String.eqb (msg_type message) "clearEvents" then
    set_capturedEvents [] ;;
    respond ResponseSuccess ;;
    Eff.ret true
  else if String.eqb (msg_type message) "getAndClearEvents" then
    do w <- Eff.get;
    let events := capturedEvents w in
    set_capturedEvents [] ;;
    respond (ResponseEvents events) ;;
    Eff.ret true
  else Eff.ret false.

(** The listener installed on a connected port. *)
Definition onPortMessage (message : message) : Eff.M worker unit :=
  Eff.when (String.eqb (msg_type message) "getEvents")
    (do w <- Eff.get; respond (ResponseEvents (capturedEvents w))) ;;
  Eff.when (String.eqb (msg_type message) "clearEvents")
    (set_capturedEvents [] ;; respond ResponseSuccess) ;;
  Eff.when (String.eqb (msg_type message) "getAndClearEvents")
    (do w <- Eff.get;
     let events := capturedEvents w in
     set_capturedEvents [] ;;
     respond (ResponseEvents events)).

(** The [chrome.runtime.onConnect] listener: a port named [web-logger]
    gets the message listener, any other port gets none. *)
Definition onConnect (port_name : string) : option (message -> Eff.M worker unit) :=
  if String.eqb port_name "web-logger" then Some onPortMessage else None.

(** What reaches the worker. *)
Inductive request :=
  | FromContent (m : message) (s : sender)
  | FromExternal (m : message)
  | FromPort (port_name : string) (m : message).

(** One listener run. An exception that escapes a listener ends that run
    and leaves the state as the listener had it. *)
Definition serve (r : request) (w : worker) : worker :=
  match r with
  | FromContent m s => Eff.final_state (onMessage m s w)
  | FromExternal m => Eff.final_state (onMessageExternal m w)
  | FromPort port_name m =>
      match onConnect port_name with
      | Some listener => Eff.final_state (listener m w)
      | None => w
      end
  end.

Definition run (trace : list request) (w : worker) : worker :=
  foldl (fun w r => serve r w) w trace.

(** The worker when the script has been loaded. *)
Definition loaded (valid : bool) : worker := mkWorker [] [] [] valid.

(** The two message types that empty the buffer. *)
Definition is_clearing (m : message) : bool :=
  String.eqb (msg_type m) "clearEvents"
  || String.eqb (msg_type m) "getAndClearEvents".

Definition clears (r : request) : bool :=
  match r with
  | FromContent _ _ => false
  | FromExternal m => is_clearing m
  | FromPort port_name m => String.eqb port_name "web-logger" && is_clearing m
  end.

(** The events a request brings in. *)
Definition arrivals (r : request) : list (gmap string jsval) :=
  match r with
  | FromContent m s =>
      if String.eqb (msg_type m) "interaction" then
        match msg_data m with
        | Some data => [with_tab_info data s]
        | None => []
        end
      else []
  | _ => []
  end.

End Background.

(** ** The session timeline *)

(** The timeline lives in the recorder, outside the extension. Its data
    model and its operations are taken from the specification. *)
Module Timeline.

(** Modelled from the spec: the eventKind of the data model; the
    recorder's sources are not available. *)
Inductive eventKind := click | input | change | submit.

(** Modelled from the spec: the InteractionEvent record of the data
    model (the recorder's own declaration is not part of the sources). *)
Record InteractionEvent := mkInteraction {
  timestamp : Z;
  kind : eventKind;
  selector : string;
  tagName : string;
  attributes : gmap string string;
  text : string;
  value : option string;
  formValues : option (gmap string string);
  pageUrl : string;
}.

(** Modelled from the spec: a request or response body of the data model:
    absent, raw text, parsed structured data, or the binary placeholder. *)
Inductive body :=
  | NoBody
  | RawText (s : string)
  | Structured (json : string)
  | BinaryPlaceholder.

(** Modelled from the spec: the NetworkEvent record of the data model. *)
Record NetworkEvent := mkNetwork {
  net_timestamp : Z;
  net_url : string;
  net_method : string;
  requestHeaders : gmap string string;
  requestBody : body;
  responseStatus : option Z;
  responseHeaders : gmap string string;
  responseBody : body;
  error : option string;
}.

(** Modelled from the spec: the tagged union stored in a session. *)
Inductive event :=
  | Interaction (e : InteractionEvent)
  | Network (e : NetworkEvent).

(** Modelled from the spec: the Session aggregate; [endTime] is [None]
    until the session is finalized. *)
Record Session := mkSession {
  startTime : Z;
  endTime : option Z;
  startUrl : string;
  rootDomain : string;
  events : list event;
}.

Definition event_timestamp (ev : event) : Z :=
  match ev with
  | Interaction e => timestamp e
  | Network e => net_timestamp e
  end.

Definition kind_eqb (a b : eventKind) : bool :=
  match a, b with
  | click, click | input, input | change, change | submit, submit => true
  | _, _ => false
  end.

(** Modelled from the spec: the content key of an interaction,
    timestamp + selector + eventKind. *)
Definition content_key (e : InteractionEvent) : Z * string * eventKind :=
  (timestamp e, selector e, kind e).

Definition key_eqb (a b : Z * string * eventKind) : bool :=
  (a.1.1 =? b.1.1)%Z && String.eqb a.1.2 b.1.2 && kind_eqb a.2 b.2.

Definition has_key (k : Z * string * eventKind) (ev : event) : bool :=
  match ev with
  | Interaction e => key_eqb (content_key e) k
  | Network _ => false
  end.

(** Modelled from the spec: [start]. The root domain is derived by the
    domain scope resolver and is taken as given. *)
Definition start (now : Z) (url domain : string) : Session :=
  mkSession now None url domain [].

(** Modelled from the spec: [append]. A finalized session rejects the
    call; an interaction whose content key is already recorded is
    dropped; anything else is pushed at the end. *)
Definition append (ev : event) (s : Session) : Session :=
  match endTime s with
  | Some _ => s
  | None =>
      let duplicate :=
        match ev with
        | Interaction e => existsb (has_key (content_key e)) (events s)
        | Network _ => false
        end in
      if duplicate then s
      else mkSession (startTime s) None (startUrl s) (rootDomain s)
                     (events s ++ [ev])
  end.

(** Modelled from the spec: the tie-break of [finalize]; on equal
    timestamps an interaction goes before a network event. *)
Definition rank (ev : event) : nat :=
  match ev with
  | Interaction _ => 0
  | Network _ => 1
  end.

Definition event_leb (a b : event) : bool :=
  (event_timestamp a <? event_timestamp b)%Z
  || ((event_timestamp a =? event_timestamp b)%Z && (rank a <=? rank b)%nat).

Fixpoint insert_sorted (ev : event) (l : list event) : list event :=
  match l with
  | [] => [ev]
  | x :: l' => if event_leb ev x then ev :: x :: l' else x :: insert_sorted ev l'
  end.

(** Modelled from the spec: the sort of [finalize], a stable sort by
    timestamp, ascending. *)
Fixpoint sort_events (l : list event) : list event :=
  match l with
  | [] => []
  | ev :: l' => insert_sorted ev (sort_events l')
  end.

(** Modelled from the spec: [finalize] sets [endTime] and sorts the
    events once; a second call changes nothing. *)
Definition finalize (now : Z) (s : Session) : Session :=
  match endTime s with
  | Some _ => s
  | None =>
      mkSession (startTime s) (Some now) (startUrl s) (rootDomain s)
                (sort_events (events s))
  end.

(** Modelled from the spec: the three transports of an interaction named
    by the external interfaces. *)
Inductive channel := RuntimeMessage | ConsoleLine | PolledBuffer.

Record delivery := mkDelivery {
  via : channel;
  carried : event;
}.

(** Modelled from the spec: the timeline accepts any transport
    interchangeably, each delivery is appended. *)
Definition receive (d : delivery) (s : Session) : Session :=
  append (carried d) s.

Definition receive_all (ds : list delivery) (s : Session) : Session :=
  foldl (fun s d => receive d s) s ds.

(** How many entries of a timeline carry a content key. *)
Definition count_key (k : Z * string * eventKind) (l : list event) : nat :=
  List.length (List.filter (has_key k) l).

End Timeline.

(** ** Notions used in the statements *)

(** The value an object literal ends up with under a key: the one written
    last. *)
Fixpoint written_last (k : string) (props : list (string * jsval)) : option jsval :=
  match props with
  | [] => None
  | (k', v) :: rest =>
      match written_last k rest with
      | Some v' => Some v'
      | None => if String.eqb k' k then Some v else None
      end
  end.

(** The polled buffer as an array, [undefined] read as not yet filled. *)
Definition buffered (p : page) : list (gmap string jsval) :=
  match webLoggerEvents p with
  | Some b => b
  | None => []
  end.

(** A run of a handler on a page delivers a record: it returns, the record
    is the new last entry of the polled buffer, and the new last console
    line is the prefixed serialization of the record. *)
Definition delivers (JSON_stringify : gmap string jsval -> string)
    (run : Eff.M page unit) (p : page) (rec : gmap string jsval) : Prop :=
  exists p',
    run p = Eff.Returned tt p' /\
    webLoggerEvents p' = Some (buffered p ++ [rec])%list /\
    List.last (console p') (ConsoleLog "") =
      ConsoleLog (Content.WEB_LOGGER_EVENT ++ JSON_stringify rec).

(** A string made of white space only. *)
Fixpoint all_spaces (s : string) : bool :=
  match s with
  | EmptyString => true
  | String c s' => JsString.is_space c && all_spaces s'
  end.

(** The [className] gives no class token: it is not a string, or it is
    white space only. *)
Definition no_class_tokens (c : class_prop) : Prop :=
  match c with
  | ClassString cls => all_spaces cls = true
  | ClassObject => True
  end.

(** Whether a child has the tag name of the element. *)
Definition same_tag (e : element) (c : child) : bool :=
  String.eqb (child_tagName c) (tagName e).

(** A session that is still recording and holds no content key twice. *)
Definition recording_deduplicated (s : Timeline.Session) : Prop :=
  Timeline.endTime s = None /\
  forall k, (Timeline.count_key k (Timeline.events s) <= 1)%nat.

(** ** Sample inputs *)

Module Samples.

Fixpoint repeat_char (c : ascii) (n : nat) : string :=
  match n with
  | O => EmptyString
  | S n' => String c (repeat_char c n')
  end.

Definition plain (n : nat) (tag ident cls : string) (text : string)
    (p : option parent) : element :=
  mkElement n tag ident (ClassString cls) ∅ (Some text) None JUndefined p.

Definition text_at_max : string := repeat_char "a" 100.
Definition text_over_max : string := repeat_char "b" 101.

Definition list_items : parent :=
  mkParent [mkChild 1 "LI"; mkChild 2 "SPAN"; mkChild 3 "LI"; mkChild 4 "LI"].

(** A button with an id, two classes and three siblings. *)
Definition button_with_id : element :=
  plain 3 "BUTTON" "submit-btn" "primary large" "Submit"
        (Some (mkParent [mkChild 1 "BUTTON"; mkChild 2 "BUTTON"; mkChild 3 "BUTTON"])).

(** The third child of a list, the second of its [LI] children. *)
Definition second_item : element := plain 3 "LI" "" "  " "two" (Some list_items).

(** An element that is not attached to a parent. *)
Definition detached : element := plain 9 "DIV" "" "" "" None.

Definition fresh_page : page :=
  mkPage 1706000000000 "https://example.com/login" true [] [] None.

(** A page whose extension context has been invalidated. *)
Definition orphaned_page : page :=
  mkPage 1706000000500 "https://example.com/login" false [] [] None.

Definition no_serializer (rec : gmap string jsval) : string := "{}".

Definition password_input : element :=
  mkElement 5 "INPUT" "" (ClassString "") {["type" := "password"]}
            (Some "") (Some "password") (JStr "hunter2") None.

Definition empty_text_input : element :=
  mkElement 6 "INPUT" "" (ClassString "") {["type" := "text"]}
            (Some "") (Some "text") (JStr "") None.

Definition click_data : gmap string jsval :=
  Content.createLogEntry fresh_page "click" button_with_id [].

Definition from_tab : sender :=
  mkSender (Some (mkTab (JNum 12) (JStr "https://example.com/login"))).

Definition ask (type : string) : message := mkMessage type None.

(** Two clicks arrive, the buffer is read, then read and cleared. *)
Definition polling_trace : list Background.request :=
  [ Background.FromContent (mkMessage "interaction" (Some click_data)) from_tab;
    Background.FromExternal (ask "getEvents");
    Background.FromContent (mkMessage "interaction" (Some click_data))
      (mkSender None) ].

(** One click as the timeline gets it. *)
Definition click_event : Timeline.InteractionEvent :=
  Timeline.mkInteraction 1706000000000 Timeline.click "#submit-btn" "BUTTON"
    {["id" := "submit-btn"]} "Submit" None None "https://example.com/login".

(** The same click as relayed with tab information: another page URL
    field does not change the content key. *)
Definition click_event_mirrored : Timeline.InteractionEvent :=
  Timeline.mkInteraction 1706000000000 Timeline.click "#submit-btn" "BUTTON"
    ∅ "Submit" None None "https://example.com/login#top".

Definition a_request : Timeline.NetworkEvent :=
  Timeline.mkNetwork 1706000000000 "https://api.example.com/data" "POST"
    ∅ (Timeline.Structured "{}") (Some 200%Z) ∅ (Timeline.RawText "ok") None.

(** A form in which a text field comes before a password field of the
    same name. *)
Definition shared_name_form : form :=
  mkForm (plain 4 "FORM" "login" "" "" None)
         [ mkField (Some "secret") (Some "text")
             [("secret", TextValue "hint")] true;
           mkField (Some "secret") (Some "password")
             [("secret", TextValue "hunter2")] true ].

(** A selector engine that takes no text beyond the name tests. *)
Definition no_engine (text : string) (f : form) : option (option field) := None.

(** A named control with one text value. *)
Definition control (name type value : string) : field :=
  mkField (Some name) (Some type) [(name, TextValue value)] true.

End Samples.

(** ** Notions used in the further properties *)

(** A string without white space. *)
Fixpoint space_free (s : string) : bool :=
  match s with
  | EmptyString => true
  | String c s' => negb (JsString.is_space c) && space_free s'
  end.

(** A class name as an author writes it: not empty, no white space. *)
Definition class_name (t : string) : Prop :=
  t <> "" /\ space_free t = true.

(** The value the last entry of a name has in a form's data set. *)
Fixpoint last_value (n : string) (entries : list (string * form_value))
  : option form_value :=
  match entries with
  | [] => None
  | (k, v) :: rest =>
      match last_value n rest with
      | Some v' => Some v'
      | None => if String.eqb k n then Some v else None
      end
  end.

(** The selector text built from the name is a valid test of the [name]
    attribute. *)
Definition resolves (name : string) : Prop :=
  exists v, quoted_name name = Equals v.

(** The nine fields every record starts with. *)
Definition base_fields : list string :=
  ["timestamp"; "type"; "event"; "selector"; "tagName"; "attributes"; "value";
   "innerText"; "url"].

(** [sendEvent] on one record after the other. *)
Fixpoint send_all (JSON_stringify : gmap string jsval -> string)
    (recs : list (gmap string jsval)) : Eff.M page unit :=
  match recs with
  | [] => Eff.ret tt
  | rec :: rest =>
      Content.sendEvent JSON_stringify rec ;; send_all JSON_stringify rest
  end.

Definition is_log (l : console_line) : bool :=
  match l with
  | ConsoleLog _ => true
  | ConsoleDebug _ _ => false
  end.




(** The messages a page has handed to runtime messaging, as they reach the
    worker from a sender. *)
Definition relay (p : page) (s : sender) (w : worker) : worker :=
  Background.run (List.map (fun m => Background.FromContent m s) (outbox p)) w.


(** * Verification *)

(** ** The definitions on small inputs *)

Example split_spaces_runs :
  JsString.split_spaces "a  b" = ["a"; "b"]
  /\ JsString.split_spaces " a" = [""; "a"]
  /\ JsString.split_spaces "" = [""].
Proof. repeat split. Qed.

Example trim_both_ends : JsString.trim "  btn  primary " = "btn  primary".
Proof. reflexivity. Qed.

Example substring_swaps : JsString.substring "abcdef" 4 2 = "cd".
Proof. reflexivity. Qed.

Example generateSelector_classes :
  Content.generateSelector
    (Some (Samples.plain 1 "DIV" "" " card  wide " "" None))
  = Some "div.card.wide".
Proof. reflexivity. Qed.

Example generateSelector_null_target : Content.generateSelector None = None.
Proof. reflexivity. Qed.

Example getAttributes_whitelist :
  Content.getAttributes
    (mkElement 1 "A" "" (ClassString "")
       (<["href" := "/next"]> (<["title" := "Next"]> ∅))
       (Some "Next") None JUndefined None)
  = {["href" := "/next"]}.
Proof. vm_compute. reflexivity. Qed.

Example getInputValue_text :
  Content.getInputValue
    (mkElement 1 "INPUT" "" (ClassString "") ∅ (Some "") (Some "text")
       (JStr "alice") None)
  = JStr "alice".
Proof. reflexivity. Qed.

Example getFormValues_redacts :
  Content.getFormValues Samples.no_engine
    (mkForm (Samples.plain 4 "FORM" "login" "" "" None)
       [ Samples.control "user" "text" "alice";
         Samples.control "pass" "password" "hunter2";
         mkField (Some "remember") (Some "checkbox") [] true ])
    Samples.fresh_page
  = Eff.Returned
      (<["pass" := TextValue "[REDACTED]"]> (<["user" := TextValue "alice"]> ∅))
      Samples.fresh_page.
Proof. vm_compute. reflexivity. Qed.

Example quoted_name_cases :
  quoted_name "user" = Equals "user"
  /\ quoted_name "p\w" = Equals "pw"
  /\ quoted_name ("a" ++ double_quote ++ "b") = Invalid
  /\ quoted_name ("a" ++ String (ascii_of_nat 10) "b") = Invalid
  /\ quoted_name "a\41 " = Beyond
  /\ quoted_name "a\" = Beyond
  /\ quoted_name ("a" ++ double_quote ++ "],[x=" ++ double_quote ++ "b") = Beyond.
Proof. repeat split. Qed.

(** A password field whose name holds a backslash: the selector asks for
    the name [pw], finds nothing, and the password is stored as it is. *)
Example getFormValues_escaped_name :
  Content.getFormValues Samples.no_engine
    (mkForm (Samples.plain 4 "FORM" "" "" "" None)
       [ Samples.control "p\w" "password" "hunter2" ])
    Samples.fresh_page
  = Eff.Returned (<["p\w" := TextValue "hunter2"]> ∅) Samples.fresh_page.
Proof. vm_compute. reflexivity. Qed.

(** A password field outside the form that names the form in its [form]
    attribute: it is submitted, the selector does not see it, and the
    password is stored as it is. *)
Example getFormValues_outside_control :
  Content.getFormValues Samples.no_engine
    (mkForm (Samples.plain 4 "FORM" "login" "" "" None)
       [ Samples.control "user" "text" "alice";
         mkField (Some "pass") (Some "password")
           [("pass", TextValue "hunter2")] false ])
    Samples.fresh_page
  = Eff.Returned
      (<["pass" := TextValue "hunter2"]> (<["user" := TextValue "alice"]> ∅))
      Samples.fresh_page.
Proof. vm_compute. reflexivity. Qed.

Example sort_events_by_timestamp :
  Timeline.event_timestamp <$>
    Timeline.sort_events
      [ Timeline.Network Samples.a_request;
        Timeline.Interaction Samples.click_event;
        Timeline.Interaction
          (Timeline.mkInteraction 5 Timeline.input "#q" "INPUT" ∅ "" (Some "x")
             None "https://example.com/") ]
  = [5%Z; 1706000000000%Z; 1706000000000%Z]
  /\ Timeline.rank <$>
       Timeline.sort_events
         [ Timeline.Network Samples.a_request;
           Timeline.Interaction Samples.click_event ]
     = [0%nat; 1%nat].
Proof. split; reflexivity. Qed.

(** ** Strings *)

Lemma substring_0_length (s : string) (n : nat) :
  (n <= String.length s)%nat -> String.length (String.substring 0 n s) = n.
Proof.
  revert n. induction s as [|c s IH]; intros [|n] Hn; simpl in *;
    try reflexivity; try lia.
  rewrite IH; [reflexivity | lia].
Qed.

Lemma substring_0_prefix (s : string) (n : nat) :
  exists rest, s = String.substring 0 n s ++ rest.
Proof.
  revert n. induction s as [|c s IH]; intros [|n]; simpl.
  - exists "". reflexivity.
  - exists "". reflexivity.
  - exists (String c s). reflexivity.
  - destruct (IH n) as [rest Hrest]. exists rest.
    change (String c s = String c (String.substring 0 n s ++ rest)).
    f_equal. exact Hrest.
Qed.

Lemma js_substring_from_0 (s : string) (n : nat) :
  (n <= String.length s)%nat ->
  JsString.substring s 0 n = String.substring 0 n s.
Proof.
  intros Hn. unfold JsString.substring.
  rewrite Nat.min_0_l, Nat.max_0_l. simpl Nat.min.
  rewrite Nat.min_l by exact Hn. rewrite Nat.sub_0_r. reflexivity.
Qed.

Lemma nonempty_true (s : string) : s <> "" -> JsString.nonempty s = true.
Proof.
  intros Hs. unfold JsString.nonempty.
  destruct (String.eqb_spec s ""); [contradiction | reflexivity].
Qed.

Lemma nonempty_false (s : string) : s = "" -> JsString.nonempty s = false.
Proof. intros ->. reflexivity. Qed.

Lemma nonempty_length (s : string) :
  (0 < String.length s)%nat -> JsString.nonempty s = true.
Proof. destruct s; simpl; [lia | reflexivity]. Qed.

Lemma trimStart_all_spaces (s : string) :
  all_spaces s = true -> JsString.trimStart s = "".
Proof.
  induction s as [|c s IH]; simpl; [reflexivity |].
  intros [Hc Hs]%andb_true_iff. rewrite Hc. auto.
Qed.

Lemma class_tokens_all_spaces (cls : string) :
  all_spaces cls = true -> Content.class_tokens cls = [].
Proof.
  intros H. unfold Content.class_tokens, JsString.trim.
  rewrite trimStart_all_spaces by exact H. reflexivity.
Qed.

(** ** Selectors *)

Lemma indexOf_nonneg_app (l1 l2 : list child) (c : child) (x : nat) :
  child_node c = x ->
  Forall (fun d => child_node d <> x) l1 ->
  Content.indexOf (l1 ++ c :: l2) x = Z.of_nat (List.length l1).
Proof.
  intros Hc Hl1. induction Hl1 as [|d l1 Hd _ IH]; simpl.
  - rewrite Hc, Nat.eqb_refl. reflexivity.
  - destruct (Nat.eqb_spec (child_node d) x) as [Heq|_]; [contradiction|].
    rewrite IH. destruct (Z.ltb_spec (Z.of_nat (List.length l1)) 0); lia.
Qed.

Lemma generateSelector_fallback (e : element) :
  tagName e <> "" -> elId e = "" -> no_class_tokens (className e) ->
  Content.generateSelector (Some e) =
  Some (JsString.toLowerCase (tagName e) ++ ":nth-child(" ++
        JsString.of_int
          match parentElement e with
          | Some p =>
              (Content.indexOf (List.filter (same_tag e) (children p)) (node e) + 1)%Z
          | None => 1%Z
          end ++ ")").
Proof.
  intros Htag Hid Hcls. unfold Content.generateSelector.
  rewrite (nonempty_true _ Htag), (nonempty_false _ Hid). simpl negb. cbv iota.
  destruct (className e) as [cls|]; simpl in Hcls.
  - destruct (JsString.nonempty cls); [|reflexivity].
    rewrite class_tokens_all_spaces by exact Hcls. reflexivity.
  - reflexivity.
Qed.

(** C4. Element text of exactly the maximum length (100) is returned
    unchanged, without a marker; longer text is cut to its first 100
    characters, followed by the marker [...]. *)
Theorem getInnerText_truncation (e : element) (text : string) :
  innerText e = Some text ->
  Content.MAX_INNER_TEXT_LENGTH = 100%nat /\
  (String.length text = Content.MAX_INNER_TEXT_LENGTH ->
   Content.getInnerText e = text) /\
  (Content.MAX_INNER_TEXT_LENGTH < String.length text ->
   exists kept rest,
     text = kept ++ rest /\
     String.length kept = Content.MAX_INNER_TEXT_LENGTH /\
     Content.getInnerText e = kept ++ "...").
Proof.
  intros Htext. split; [reflexivity|].
  unfold Content.getInnerText. rewrite Htext. split.
  - intros Hlen.
    rewrite nonempty_length by (rewrite Hlen; unfold Content.MAX_INNER_TEXT_LENGTH; lia).
    rewrite Hlen, Nat.ltb_irrefl. reflexivity.
  - intros Hlen.
    rewrite nonempty_length by lia.
    apply Nat.ltb_lt in Hlen as Hlt. rewrite Hlt.
    rewrite js_substring_from_0 by lia.
    destruct (substring_0_prefix text Content.MAX_INNER_TEXT_LENGTH) as [rest Hrest].
    exists (String.substring 0 Content.MAX_INNER_TEXT_LENGTH text), rest.
    split; [exact Hrest|]. split; [|reflexivity].
    apply substring_0_length. lia.
Qed.

Lemma getInnerText_truncation_witness :
  Content.getInnerText (Samples.plain 1 "P" "" "" Samples.text_at_max None)
  = Samples.text_at_max
  /\ exists kept rest,
       Samples.text_over_max = kept ++ rest /\
       String.length kept = Content.MAX_INNER_TEXT_LENGTH /\
       Content.getInnerText (Samples.plain 1 "P" "" "" Samples.text_over_max None)
       = kept ++ "...".
Proof.
  split.
  - apply (getInnerText_truncation
             (Samples.plain 1 "P" "" "" Samples.text_at_max None)
             Samples.text_at_max); reflexivity.
  - apply (getInnerText_truncation
             (Samples.plain 1 "P" "" "" Samples.text_over_max None)
             Samples.text_over_max eq_refl).
    vm_compute. lia.
Defined.

(** The guard: a target without a tag name has no selector. *)
Lemma generateSelector_no_tagName (e : element) :
  tagName e = "" -> Content.generateSelector (Some e) = None.
Proof. intros Htag. unfold Content.generateSelector. rewrite Htag. reflexivity. Qed.

(** C5. An element with a non-empty id gets the selector [#id], whatever
    its class list, its tag name and its place among its siblings. *)
Theorem generateSelector_id (e : element) :
  tagName e <> "" ->
  elId e <> "" ->
  Content.generateSelector (Some e) = Some ("#" ++ elId e).
Proof.
  intros Htag Hid. unfold Content.generateSelector.
  rewrite (nonempty_true _ Htag), (nonempty_true _ Hid). reflexivity.
Qed.

Lemma generateSelector_id_witness :
  Content.generateSelector (Some Samples.button_with_id) = Some "#submit-btn".
Proof.
  apply (generateSelector_id Samples.button_with_id); vm_compute; discriminate.
Defined.

(** C6. An element with an empty id and no class gets the selector
    [tag:nth-child(n)]: [tag] is the lower-cased tag name; [n] is 1 when
    the element has no parent, and otherwise one more than the number of
    same-tag children of the parent that come before the element. *)
Theorem generateSelector_nth_child (e : element) :
  tagName e <> "" ->
  elId e = "" ->
  no_class_tokens (className e) ->
  (parentElement e = None ->
   Content.generateSelector (Some e) =
   Some (JsString.toLowerCase (tagName e) ++ ":nth-child(1)")) /\
  (forall p before self after,
     parentElement e = Some p ->
     children p = (before ++ self :: after)%list ->
     child_node self = node e ->
     child_tagName self = tagName e ->
     Forall (fun c => child_node c <> node e) before ->
     Content.generateSelector (Some e) =
     Some (JsString.toLowerCase (tagName e) ++ ":nth-child(" ++
           JsString.of_int
             (Z.of_nat (List.length (List.filter (same_tag e) before)) + 1) ++
           ")")).
Proof.
  intros Htag Hid Hcls.
  pose proof (generateSelector_fallback e Htag Hid Hcls) as Hsel.
  split.
  - intros Hparent. rewrite Hsel, Hparent. reflexivity.
  - intros p before self after Hparent Hchildren Hnode Hself Hbefore.
    rewrite Hsel, Hparent, Hchildren.
    rewrite List.filter_app. simpl List.filter.
    assert (same_tag e self = true) as ->.
    { unfold same_tag. rewrite Hself. apply String.eqb_refl. }
    rewrite (indexOf_nonneg_app _ _ self (node e) Hnode); [reflexivity|].
    apply Forall_forall. intros c Hc.
    apply list_elem_of_In, List.filter_In in Hc as [Hin _].
    rewrite Forall_forall in Hbefore. apply Hbefore.
    apply list_elem_of_In. exact Hin.
Qed.

Lemma generateSelector_nth_child_witness :
  Content.generateSelector (Some Samples.second_item) = Some "li:nth-child(2)"
  /\ Content.generateSelector (Some Samples.detached) = Some "div:nth-child(1)".
Proof.
  split.
  - apply (proj2 (generateSelector_nth_child Samples.second_item
                    ltac:(discriminate) eq_refl eq_refl)
             Samples.list_items
             [mkChild 1 "LI"; mkChild 2 "SPAN"] (mkChild 3 "LI") [mkChild 4 "LI"]);
      try reflexivity.
    repeat constructor; simpl; lia.
  - apply (proj1 (generateSelector_nth_child Samples.detached
                    ltac:(discriminate) eq_refl eq_refl)).
    reflexivity.
Defined.

(** ** Records and their delivery *)

Lemma foldl_insert_lookup (props : list (string * jsval)) (o : gmap string jsval)
    (k : string) :
  foldl (fun o kv => <[kv.1 := kv.2]> o) o props !! k =
  match written_last k props with
  | Some v => Some v
  | None => o !! k
  end.
Proof.
  revert o. induction props as [|[k' v] props IH]; intros o; simpl; [reflexivity|].
  rewrite IH. destruct (written_last k props); [reflexivity|].
  destruct (String.eqb_spec k' k) as [->|Hne].
  - apply lookup_insert_eq.
  - apply lookup_insert_ne. exact Hne.
Qed.

Lemma obj_literal_lookup (props : list (string * jsval)) (k : string) :
  obj_literal props !! k = written_last k props.
Proof.
  unfold obj_literal. rewrite foldl_insert_lookup.
  destruct (written_last k props); [reflexivity | apply lookup_empty].
Qed.

Lemma sendEvent_outcome (JSON_stringify : gmap string jsval -> string)
    (rec : gmap string jsval) (p : page) :
  Content.sendEvent JSON_stringify rec p =
  Eff.Returned tt
    (mkPage (clock p) (location_href p) (runtime_valid p)
       (if runtime_valid p
        then outbox p ++ [mkMessage "interaction" (Some rec)]
        else outbox p)
       ((if runtime_valid p
         then console p
         else console p ++
              [ConsoleDebug "Web Logger: Could not send event"
                            "Extension context invalidated."])
        ++ [ConsoleLog (Content.WEB_LOGGER_EVENT ++ JSON_stringify rec)])
       (Some (buffered p ++ [rec])%list)).
Proof.
  destruct p as [now href valid out con buf].
  destruct valid, buf as [b|]; reflexivity.
Qed.

Lemma sendEvent_delivers (JSON_stringify : gmap string jsval -> string)
    (rec : gmap string jsval) (p : page) :
  delivers JSON_stringify (Content.sendEvent JSON_stringify rec) p rec.
Proof.
  eexists. split; [apply sendEvent_outcome|]. simpl. split; [reflexivity|].
  apply List.last_last.
Qed.

Lemma handleClick_sends (JSON_stringify : gmap string jsval -> string)
    (e : element) (p : page) :
  Content.handleClick JSON_stringify e p =
  Content.sendEvent JSON_stringify (Content.createLogEntry p "click" e []) p.
Proof. reflexivity. Qed.

Lemma handleInput_sends (JSON_stringify : gmap string jsval -> string)
    (e : element) (p : page) :
  Content.handleInput JSON_stringify e p =
  Content.sendEvent JSON_stringify
    (Content.createLogEntry p "input" e [("value", Content.getInputValue e)]) p.
Proof. reflexivity. Qed.

Lemma handleChange_sends (JSON_stringify : gmap string jsval -> string)
    (e : element) (p : page) :
  Content.handleChange JSON_stringify e p =
  Content.sendEvent JSON_stringify
    (Content.createLogEntry p "change" e [("value", Content.getInputValue e)]) p.
Proof. reflexivity. Qed.

Lemma handleClick_delivers (JSON_stringify : gmap string jsval -> string)
    (e : element) (p : page) :
  delivers JSON_stringify (Content.handleClick JSON_stringify e) p
    (Content.createLogEntry p "click" e []).
Proof. unfold delivers. rewrite handleClick_sends. apply sendEvent_delivers. Qed.

Lemma handleInput_delivers (JSON_stringify : gmap string jsval -> string)
    (e : element) (p : page) :
  delivers JSON_stringify (Content.handleInput JSON_stringify e) p
    (Content.createLogEntry p "input" e [("value", Content.getInputValue e)]).
Proof. unfold delivers. rewrite handleInput_sends. apply sendEvent_delivers. Qed.

Lemma handleChange_delivers (JSON_stringify : gmap string jsval -> string)
    (e : element) (p : page) :
  delivers JSON_stringify (Content.handleChange JSON_stringify e) p
    (Content.createLogEntry p "change" e [("value", Content.getInputValue e)]).
Proof. unfold delivers. rewrite handleChange_sends. apply sendEvent_delivers. Qed.

Lemma assign_lookup (name : string) (v : form_value)
    (values : gmap string form_value) (n : string) :
  assign name v values !! n =
  if String.eqb name n && negb (String.eqb name "__proto__")
  then Some v else values !! n.
Proof.
  unfold assign. destruct (String.eqb name "__proto__").
  - rewrite andb_false_r. reflexivity.
  - rewrite andb_true_r. destruct (String.eqb_spec name n) as [->|Hne].
    + apply lookup_insert_eq.
    + apply lookup_insert_ne. exact Hne.
Qed.

Lemma query_outcome_resolved
    (selector_engine : string -> form -> option (option field))
    (f : form) (name v : string) :
  quoted_name name = Equals v ->
  query_outcome selector_engine f name = Some (first_named f v).
Proof. intros Hname. unfold query_outcome. rewrite Hname. reflexivity. Qed.

Lemma assign_entries_cons
    (selector_engine : string -> form -> option (option field))
    (f : form) (name : string) (value : form_value)
    (rest : list (string * form_value)) (values : gmap string form_value)
    (p : page) :
  Content.assign_entries selector_engine f ((name, value) :: rest) values p =
  match query_outcome selector_engine f name with
  | Some found =>
      Content.assign_entries selector_engine f rest
        (if Content.is_password_field found
         then assign name (TextValue Content.REDACTED) values
         else assign name value values) p
  | None => Eff.Thrown "SyntaxError" p
  end.
Proof.
  simpl. unfold Eff.bind, Content.querySelector_name.
  destruct (query_outcome selector_engine f name); reflexivity.
Qed.

(** A run of the loop that returns has not touched the page, has resolved
    the name of every entry, and has left under each name what its last
    entry gives. *)
Lemma assign_entries_returned
    (selector_engine : string -> form -> option (option field))
    (f : form) (entries : list (string * form_value))
    (values values' : gmap string form_value) (p p' : page) :
  Content.assign_entries selector_engine f entries values p
    = Eff.Returned values' p' ->
  p' = p /\
  Forall (fun entry => is_Some (query_outcome selector_engine f entry.1)) entries /\
  values' !! "__proto__" = values !! "__proto__" /\
  forall n, n <> "__proto__" ->
    values' !! n =
    match last_value n entries with
    | Some x =>
        if Content.is_password_field
             (default None (query_outcome selector_engine f n))
        then Some (TextValue Content.REDACTED) else Some x
    | None => values !! n
    end.
Proof.
  revert values. induction entries as [|[k x] entries IH]; intros values Hrun.
  - injection Hrun as <- <-.
    split; [reflexivity|]. split; [constructor|]. split; [reflexivity|].
    intros n _. reflexivity.
  - rewrite assign_entries_cons in Hrun.
    destruct (query_outcome selector_engine f k) as [found|] eqn:Hk;
      [|discriminate Hrun].
    apply IH in Hrun as (Hp & Hall & Hproto & Hlookup).
    split; [exact Hp|]. split; [constructor; [simpl; rewrite Hk; eauto | exact Hall]|].
    split.
    + rewrite Hproto.
      destruct (Content.is_password_field found); rewrite assign_lookup;
        destruct (String.eqb_spec k "__proto__") as [->|_]; reflexivity.
    + intros n Hn. rewrite (Hlookup n Hn). simpl.
      destruct (last_value n entries); [reflexivity|].
      destruct (String.eqb_spec k n) as [->|Hne].
      * rewrite Hk. simpl.
        destruct (Content.is_password_field found); rewrite assign_lookup,
          String.eqb_refl;
          destruct (String.eqb_spec n "__proto__"); try contradiction;
          reflexivity.
      * destruct (Content.is_password_field found); rewrite assign_lookup;
          destruct (String.eqb_spec k n); try contradiction; reflexivity.
Qed.

Lemma assign_entries_thrown
    (selector_engine : string -> form -> option (option field))
    (f : form) (entries : list (string * form_value))
    (values : gmap string form_value) (p p' : page) (err : string) :
  Content.assign_entries selector_engine f entries values p = Eff.Thrown err p' ->
  p' = p /\ err = "SyntaxError".
Proof.
  revert values. induction entries as [|[k x] entries IH]; intros values Hrun.
  - discriminate Hrun.
  - rewrite assign_entries_cons in Hrun.
    destruct (query_outcome selector_engine f k) as [found|].
    + exact (IH _ Hrun).
    + injection Hrun as <- <-. split; reflexivity.
Qed.

Lemma assign_entries_resolved
    (selector_engine : string -> form -> option (option field))
    (f : form) (entries : list (string * form_value))
    (values : gmap string form_value) (p : page) :
  Forall (fun entry => resolves entry.1) entries ->
  exists values',
    Content.assign_entries selector_engine f entries values p
      = Eff.Returned values' p.
Proof.
  intros Hentries. revert values.
  induction Hentries as [|[k x] entries [v Hk] _ IH]; intros values.
  - exists values. reflexivity.
  - rewrite assign_entries_cons. simpl in Hk.
    rewrite (query_outcome_resolved _ _ _ _ Hk). apply IH.
Qed.

Lemma getFormValues_returned
    (selector_engine : string -> form -> option (option field))
    (f : form) (values : gmap string form_value) (p p' : page) :
  Content.getFormValues selector_engine f p = Eff.Returned values p' ->
  p' = p /\
  values !! "__proto__" = None /\
  forall n, n <> "__proto__" ->
    values !! n =
    match last_value n (formData_entries f) with
    | Some x =>
        if Content.is_password_field
             (default None (query_outcome selector_engine f n))
        then Some (TextValue Content.REDACTED) else Some x
    | None => None
    end.
Proof.
  intros Hrun. unfold Content.getFormValues in Hrun.
  apply assign_entries_returned in Hrun as (Hp & _ & Hproto & Hlookup).
  split; [exact Hp|]. split; [rewrite Hproto; apply lookup_empty|].
  intros n Hn. rewrite (Hlookup n Hn).
  destruct (last_value n (formData_entries f)); [reflexivity | apply lookup_empty].
Qed.

Lemma handleSubmit_run
    (selector_engine : string -> form -> option (option field))
    (JSON_stringify : gmap string jsval -> string) (f : form) (p : page) :
  Content.handleSubmit selector_engine JSON_stringify f p =
  match Content.getFormValues selector_engine f p with
  | Eff.Returned values p' =>
      Content.sendEvent JSON_stringify
        (Content.createLogEntry p' "submit" (form_element f)
           [("formValues", JFormValues values)]) p'
  | Eff.Thrown err p' => Eff.Thrown err p'
  end.
Proof.
  unfold Content.handleSubmit, Eff.bind.
  destruct (Content.getFormValues selector_engine f p); reflexivity.
Qed.

(** When [getFormValues] returns, the submit is delivered with what it
    returned. *)
Lemma handleSubmit_delivers
    (selector_engine : string -> form -> option (option field))
    (JSON_stringify : gmap string jsval -> string) (f : form) (p : page)
    (values : gmap string form_value) :
  Content.getFormValues selector_engine f p = Eff.Returned values p ->
  delivers JSON_stringify
    (Content.handleSubmit selector_engine JSON_stringify f) p
    (Content.createLogEntry p "submit" (form_element f)
       [("formValues", JFormValues values)]).
Proof.
  intros Hvalues. unfold delivers. rewrite handleSubmit_run, Hvalues.
  apply sendEvent_delivers.
Qed.

(** A delivered submit is the record made from what [getFormValues]
    returned. *)
Lemma handleSubmit_delivered
    (selector_engine : string -> form -> option (option field))
    (JSON_stringify : gmap string jsval -> string) (f : form) (p : page)
    (rec : gmap string jsval) :
  delivers JSON_stringify
    (Content.handleSubmit selector_engine JSON_stringify f) p rec ->
  exists values,
    Content.getFormValues selector_engine f p = Eff.Returned values p /\
    rec = Content.createLogEntry p "submit" (form_element f)
            [("formValues", JFormValues values)].
Proof.
  intros (p' & Hrun & Hbuf & _). rewrite handleSubmit_run in Hrun.
  destruct (Content.getFormValues selector_engine f p) as [values p1|err p1]
    eqn:Hvalues; [|discriminate Hrun].
  destruct (getFormValues_returned _ _ _ _ _ Hvalues) as (-> & _).
  exists values. split; [reflexivity|].
  rewrite sendEvent_outcome in Hrun. injection Hrun as <-. simpl in Hbuf.
  injection Hbuf as Hbuf. apply List.app_inj_tail in Hbuf as [_ Hrec].
  symmetry. exact Hrec.
Qed.

(** When [getFormValues] throws, the handler throws and the page is as it
    was: nothing has gone out on any channel. *)
Lemma handleSubmit_thrown
    (selector_engine : string -> form -> option (option field))
    (JSON_stringify : gmap string jsval -> string) (f : form) (p p' : page)
    (err : string) :
  Content.getFormValues selector_engine f p = Eff.Thrown err p' ->
  Content.handleSubmit selector_engine JSON_stringify f p
    = Eff.Thrown "SyntaxError" p.
Proof.
  intros Hvalues. rewrite handleSubmit_run, Hvalues.
  unfold Content.getFormValues in Hvalues.
  apply assign_entries_thrown in Hvalues as [-> ->]. reflexivity.
Qed.

Lemma createLogEntry_event (p : page) (eventType : string) (e : element)
    (k : string) (v : jsval) :
  String.eqb k "event" = false ->
  Content.createLogEntry p eventType e [(k, v)] !! "event" = Some (JStr eventType).
Proof.
  intros Hk. unfold Content.createLogEntry. rewrite obj_literal_lookup.
  simpl. rewrite Hk. reflexivity.
Qed.

Lemma createLogEntry_value_default (p : page) (eventType : string) (e : element) :
  Content.createLogEntry p eventType e [] !! "value" = Some JNull.
Proof. unfold Content.createLogEntry. rewrite obj_literal_lookup. reflexivity. Qed.

Lemma createLogEntry_value_extra (p : page) (eventType : string) (e : element)
    (v : jsval) :
  Content.createLogEntry p eventType e [("value", v)] !! "value" = Some v.
Proof. unfold Content.createLogEntry. rewrite obj_literal_lookup. reflexivity. Qed.

Lemma createLogEntry_value_formValues (p : page) (eventType : string) (e : element)
    (v : jsval) :
  Content.createLogEntry p eventType e [("formValues", v)] !! "value" = Some JNull.
Proof. unfold Content.createLogEntry. rewrite obj_literal_lookup. reflexivity. Qed.

Lemma getInputValue_password (e : element) :
  elType e = Some "password" -> Content.getInputValue e = JNull.
Proof. intros Ht. unfold Content.getInputValue. rewrite Ht. reflexivity. Qed.

Lemma is_password_false (t : option string) :
  t <> Some "password" -> Content.is_password t = false.
Proof.
  intros Ht. destruct t as [t|]; [|reflexivity]. simpl.
  destruct (String.eqb_spec t "password") as [->|_]; [contradiction | reflexivity].
Qed.

(** C3. An input or change event on a password-typed field produces a
    record whose value is null, whatever the field holds. *)
Theorem password_value_is_null (JSON_stringify : gmap string jsval -> string)
    (p : page) (e : element) :
  elType e = Some "password" ->
  exists on_input on_change,
    delivers JSON_stringify (Content.handleInput JSON_stringify e) p on_input /\
    on_input !! "event" = Some (JStr "input") /\
    on_input !! "value" = Some JNull /\
    delivers JSON_stringify (Content.handleChange JSON_stringify e) p on_change /\
    on_change !! "event" = Some (JStr "change") /\
    on_change !! "value" = Some JNull.
Proof.
  intros Ht. do 2 eexists.
  split; [apply handleInput_delivers|].
  split; [apply createLogEntry_event; reflexivity|].
  split; [rewrite createLogEntry_value_extra, getInputValue_password by exact Ht;
          reflexivity|].
  split; [apply handleChange_delivers|].
  split; [apply createLogEntry_event; reflexivity|].
  rewrite createLogEntry_value_extra, getInputValue_password by exact Ht.
  reflexivity.
Qed.

Lemma password_value_is_null_witness :
  elValue Samples.password_input = JStr "hunter2" /\
  exists on_input on_change,
    delivers Samples.no_serializer
      (Content.handleInput Samples.no_serializer Samples.password_input)
      Samples.fresh_page on_input /\
    on_input !! "event" = Some (JStr "input") /\
    on_input !! "value" = Some JNull /\
    delivers Samples.no_serializer
      (Content.handleChange Samples.no_serializer Samples.password_input)
      Samples.fresh_page on_change /\
    on_change !! "event" = Some (JStr "change") /\
    on_change !! "value" = Some JNull.
Proof.
  split; [reflexivity|].
  apply (password_value_is_null Samples.no_serializer Samples.fresh_page
           Samples.password_input).
  reflexivity.
Defined.

(** C7, as the code has it. Every record has a value entry. In click and
    submit records it is null; in input and change records it is what
    [getInputValue] gives for the target. (A submit whose form values
    cannot be collected throws and delivers no record; when every entry
    name makes a valid name test, the submit is delivered.) *)
Theorem value_entry_by_event
    (selector_engine : string -> form -> option (option field))
    (JSON_stringify : gmap string jsval -> string)
    (p : page) (e : element) (f : form) :
  (exists on_click on_input on_change,
     delivers JSON_stringify (Content.handleClick JSON_stringify e) p on_click /\
     on_click !! "value" = Some JNull /\
     delivers JSON_stringify (Content.handleInput JSON_stringify e) p on_input /\
     on_input !! "value" = Some (Content.getInputValue e) /\
     delivers JSON_stringify (Content.handleChange JSON_stringify e) p on_change /\
     on_change !! "value" = Some (Content.getInputValue e)) /\
  (forall on_submit,
     delivers JSON_stringify
       (Content.handleSubmit selector_engine JSON_stringify f) p on_submit ->
     on_submit !! "value" = Some JNull) /\
  (Forall (fun entry => resolves entry.1) (formData_entries f) ->
   exists on_submit,
     delivers JSON_stringify
       (Content.handleSubmit selector_engine JSON_stringify f) p on_submit /\
     on_submit !! "value" = Some JNull).
Proof.
  split; [|split].
  - do 3 eexists.
    split; [apply handleClick_delivers|].
    split; [apply createLogEntry_value_default|].
    split; [apply handleInput_delivers|].
    split; [apply createLogEntry_value_extra|].
    split; [apply handleChange_delivers|].
    apply createLogEntry_value_extra.
  - intros on_submit Hsubmit.
    apply handleSubmit_delivered in Hsubmit as (values & _ & ->).
    apply createLogEntry_value_formValues.
  - intros Hnames.
    destruct (assign_entries_resolved selector_engine f (formData_entries f) ∅ p
                Hnames) as [values Hvalues].
    eexists. split; [apply handleSubmit_delivers; exact Hvalues|].
    apply createLogEntry_value_formValues.
Qed.

Lemma value_entry_by_event_witness :
  exists on_submit,
    delivers Samples.no_serializer
      (Content.handleSubmit Samples.no_engine Samples.no_serializer
         Samples.shared_name_form)
      Samples.fresh_page on_submit /\
    on_submit !! "value" = Some JNull.
Proof.
  apply (proj2 (proj2 (value_entry_by_event Samples.no_engine
                         Samples.no_serializer Samples.fresh_page
                         Samples.button_with_id Samples.shared_name_form))).
  repeat constructor; eexists; reflexivity.
Defined.

(** C7, as stated, fails: the record of a click has a value entry. *)
Lemma click_record_has_value_entry :
  ~ (forall rec,
       delivers Samples.no_serializer
         (Content.handleClick Samples.no_serializer Samples.button_with_id)
         Samples.fresh_page rec ->
       rec !! "value" = None).
Proof.
  intros Hnone.
  pose proof (Hnone _ (handleClick_delivers Samples.no_serializer
                         Samples.button_with_id Samples.fresh_page)) as Habsent.
  rewrite createLogEntry_value_default in Habsent. discriminate Habsent.
Qed.

(** C8. [sendEvent] never throws. When runtime messaging throws, the
    record still goes out as a console line with the prefix
    [WEB_LOGGER_EVENT:] and as a new entry of the polled buffer. *)
Theorem sendEvent_survives_messaging_failure
    (JSON_stringify : gmap string jsval -> string)
    (rec : gmap string jsval) (p : page) :
  Eff.returns (Content.sendEvent JSON_stringify rec p) = true /\
  Content.WEB_LOGGER_EVENT = "WEB_LOGGER_EVENT:" /\
  (runtime_valid p = false ->
   exists p',
     Content.sendEvent JSON_stringify rec p = Eff.Returned tt p' /\
     outbox p' = outbox p /\
     console p' =
       (console p ++
        [ConsoleDebug "Web Logger: Could not send event"
                      "Extension context invalidated.";
         ConsoleLog (Content.WEB_LOGGER_EVENT ++ JSON_stringify rec)])%list /\
     webLoggerEvents p' = Some (buffered p ++ [rec])%list).
Proof.
  rewrite sendEvent_outcome. split; [reflexivity|]. split; [reflexivity|].
  intros Hinvalid. eexists. split; [reflexivity|]. simpl. rewrite Hinvalid.
  split; [reflexivity|]. split; [|reflexivity].
  rewrite <- List.app_assoc. reflexivity.
Qed.

Lemma sendEvent_survives_messaging_failure_witness :
  exists p',
    Content.sendEvent Samples.no_serializer
      (Content.createLogEntry Samples.orphaned_page "click"
         Samples.button_with_id [])
      Samples.orphaned_page = Eff.Returned tt p' /\
    outbox p' = [] /\
    console p' =
      [ConsoleDebug "Web Logger: Could not send event"
                    "Extension context invalidated.";
       ConsoleLog "WEB_LOGGER_EVENT:{}"] /\
    webLoggerEvents p' =
      Some [Content.createLogEntry Samples.orphaned_page "click"
              Samples.button_with_id []].
Proof.
  apply (sendEvent_survives_messaging_failure Samples.no_serializer
           (Content.createLogEntry Samples.orphaned_page "click"
              Samples.button_with_id [])
           Samples.orphaned_page).
  reflexivity.
Defined.

(** C10, as the code has it. An input or change event on a field that is
    not password-typed and whose value is the empty string produces a
    record whose value is null, not the empty string: the same value entry
    as for a password field. *)
Theorem empty_value_is_null (JSON_stringify : gmap string jsval -> string)
    (p : page) (e : element) :
  elType e <> Some "password" ->
  elValue e = JStr "" ->
  (exists on_input on_change,
     delivers JSON_stringify (Content.handleInput JSON_stringify e) p on_input /\
     on_input !! "value" = Some JNull /\
     delivers JSON_stringify (Content.handleChange JSON_stringify e) p on_change /\
     on_change !! "value" = Some JNull) /\
  (forall pw, elType pw = Some "password" ->
     Content.getInputValue pw = Content.getInputValue e).
Proof.
  intros Ht Hv.
  assert (Content.getInputValue e = JNull) as Hnull.
  { unfold Content.getInputValue. rewrite is_password_false by exact Ht.
    rewrite Hv. reflexivity. }
  split.
  - do 2 eexists.
    split; [apply handleInput_delivers|].
    split; [rewrite createLogEntry_value_extra, Hnull; reflexivity|].
    split; [apply handleChange_delivers|].
    rewrite createLogEntry_value_extra, Hnull. reflexivity.
  - intros pw Hpw. rewrite Hnull. apply getInputValue_password. exact Hpw.
Qed.

Lemma empty_value_is_null_witness :
  (exists on_input on_change,
     delivers Samples.no_serializer
       (Content.handleInput Samples.no_serializer Samples.empty_text_input)
       Samples.fresh_page on_input /\
     on_input !! "value" = Some JNull /\
     delivers Samples.no_serializer
       (Content.handleChange Samples.no_serializer Samples.empty_text_input)
       Samples.fresh_page on_change /\
     on_change !! "value" = Some JNull) /\
  (forall pw, elType pw = Some "password" ->
     Content.getInputValue pw = Content.getInputValue Samples.empty_text_input).
Proof.
  apply (empty_value_is_null Samples.no_serializer Samples.fresh_page
           Samples.empty_text_input).
  - discriminate.
  - reflexivity.
Defined.

(** ** Form values *)

Lemma last_value_app (n : string) (l1 l2 : list (string * form_value)) :
  last_value n (l1 ++ l2) =
  match last_value n l2 with
  | Some v => Some v
  | None => last_value n l1
  end.
Proof.
  induction l1 as [|[k v] l1 IH]; simpl.
  - destruct (last_value n l2); reflexivity.
  - rewrite IH. destruct (last_value n l2); reflexivity.
Qed.

Lemma last_value_none (n : string) (entries : list (string * form_value)) :
  last_value n entries = None <-> Forall (fun entry => entry.1 <> n) entries.
Proof.
  induction entries as [|[k v] entries IH]; simpl.
  - split; [constructor | reflexivity].
  - rewrite Forall_cons. simpl. rewrite <- IH.
    destruct (last_value n entries).
    + split; [discriminate | intros [_ Hno]; discriminate Hno].
    + destruct (String.eqb_spec k n) as [->|Hne].
      * split; [discriminate | intros [Hk _]; contradiction].
      * split; [auto | reflexivity].
Qed.

(** What the redaction does achieve: a name of the data set that is first
    borne, inside the form, by a password-typed element is recorded as the
    marker, provided the name makes a valid name test. *)
Lemma getFormValues_redacts_first_named
    (selector_engine : string -> form -> option (option field))
    (f : form) (fld : field) (n v : string) (x : form_value)
    (values : gmap string form_value) (p p' : page) :
  In (n, x) (formData_entries f) ->
  n <> "__proto__" ->
  quoted_name n = Equals v ->
  first_named f v = Some fld ->
  Content.is_password (field_type fld) = true ->
  Content.getFormValues selector_engine f p = Eff.Returned values p' ->
  values !! n = Some (TextValue Content.REDACTED).
Proof.
  intros Hin Hproto Hv Hfirst Hpw Hrun.
  apply getFormValues_returned in Hrun as (_ & _ & Hlookup).
  rewrite (Hlookup _ Hproto), (query_outcome_resolved _ _ _ _ Hv), Hfirst.
  simpl. rewrite Hpw.
  destruct (last_value n (formData_entries f)) eqn:Hlast; [reflexivity|].
  exfalso. apply last_value_none in Hlast. rewrite Forall_forall in Hlast.
  apply (Hlast (n, x)); [apply list_elem_of_In; exact Hin | reflexivity].
Qed.

(** C1, at a form in which a text field precedes a password field of the
    same name: the raw password is what the record holds under that name. *)
Theorem getFormValues_shared_name_leak
    (selector_engine : string -> form -> option (option field)) :
  In (mkField (Some "secret") (Some "password")
        [("secret", TextValue "hunter2")] true)
     (members Samples.shared_name_form) /\
  exists values,
    Content.getFormValues selector_engine Samples.shared_name_form
      Samples.fresh_page = Eff.Returned values Samples.fresh_page /\
    values !! "secret" = Some (TextValue "hunter2") /\
    exists rec,
      delivers Samples.no_serializer
        (Content.handleSubmit selector_engine Samples.no_serializer
           Samples.shared_name_form)
        Samples.fresh_page rec /\
      rec !! "formValues" = Some (JFormValues values).
Proof.
  split; [right; left; reflexivity|].
  eexists. split; [reflexivity|].
  split; [vm_compute; reflexivity|].
  eexists. split; [apply handleSubmit_delivers; reflexivity|].
  unfold Content.createLogEntry. rewrite obj_literal_lookup. reflexivity.
Qed.

(** ** The background relay *)

Lemma is_clearing_false (m : message) :
  Background.is_clearing m = false ->
  String.eqb (msg_type m) "clearEvents" = false /\
  String.eqb (msg_type m) "getAndClearEvents" = false.
Proof. unfold Background.is_clearing. apply orb_false_iff. Qed.

Lemma onMessageExternal_getEvents (m : message) (w : worker) :
  msg_type m = "getEvents" ->
  Background.onMessageExternal m w =
  Eff.Returned true
    (mkWorker (capturedEvents w)
              (responses w ++ [ResponseEvents (capturedEvents w)])
              (notices w) (notify_valid w)).
Proof. intros Hm. unfold Background.onMessageExternal. rewrite Hm. reflexivity. Qed.

Lemma onMessageExternal_getAndClearEvents (m : message) (w : worker) :
  msg_type m = "getAndClearEvents" ->
  Background.onMessageExternal m w =
  Eff.Returned true
    (mkWorker [] (responses w ++ [ResponseEvents (capturedEvents w)])
              (notices w) (notify_valid w)).
Proof. intros Hm. unfold Background.onMessageExternal. rewrite Hm. reflexivity. Qed.

Lemma onPortMessage_getEvents (m : message) (w : worker) :
  msg_type m = "getEvents" ->
  Background.onPortMessage m w =
  Eff.Returned tt
    (mkWorker (capturedEvents w)
              (responses w ++ [ResponseEvents (capturedEvents w)])
              (notices w) (notify_valid w)).
Proof. intros Hm. unfold Background.onPortMessage. rewrite Hm. reflexivity. Qed.

Lemma onPortMessage_getAndClearEvents (m : message) (w : worker) :
  msg_type m = "getAndClearEvents" ->
  Background.onPortMessage m w =
  Eff.Returned tt
    (mkWorker [] (responses w ++ [ResponseEvents (capturedEvents w)])
              (notices w) (notify_valid w)).
Proof. intros Hm. unfold Background.onPortMessage. rewrite Hm. reflexivity. Qed.

Lemma serve_not_clearing (r : Background.request) (w : worker) :
  Background.clears r = false ->
  capturedEvents (Background.serve r w) =
  (capturedEvents w ++ Background.arrivals r)%list.
Proof.
  destruct r as [m s | m | port_name m]; simpl; intros Hclear.
  - unfold Background.onMessage.
    destruct (String.eqb (msg_type m) "interaction"); simpl.
    + destruct (msg_data m) as [data|]; simpl.
      * destruct w as [evs rs ns valid]. destruct valid; reflexivity.
      * symmetry. apply List.app_nil_r.
    + symmetry. apply List.app_nil_r.
  - apply is_clearing_false in Hclear as [Hc Hgc].
    unfold Background.onMessageExternal. rewrite Hc, Hgc.
    destruct (String.eqb (msg_type m) "getEvents"); simpl;
      symmetry; apply List.app_nil_r.
  - unfold Background.onConnect.
    destruct (String.eqb port_name "web-logger"); simpl in *;
      [|symmetry; apply List.app_nil_r].
    apply is_clearing_false in Hclear as [Hc Hgc].
    unfold Background.onPortMessage. rewrite Hc, Hgc.
    destruct (String.eqb (msg_type m) "getEvents"); simpl;
      symmetry; apply List.app_nil_r.
Qed.

Lemma serve_clearing (r : Background.request) (w : worker) :
  Background.clears r = true ->
  capturedEvents (Background.serve r w) = [].
Proof.
  destruct r as [m s | m | port_name m]; simpl; intros Hclear.
  - discriminate.
  - unfold Background.is_clearing in Hclear. unfold Background.onMessageExternal.
    destruct (String.eqb_spec (msg_type m) "getEvents") as [Hm|_].
    + rewrite Hm in Hclear. discriminate.
    + destruct (String.eqb (msg_type m) "clearEvents"); [reflexivity|].
      simpl in Hclear. rewrite Hclear. reflexivity.
  - apply andb_true_iff in Hclear as [Hname Hclear].
    unfold Background.onConnect. rewrite Hname.
    unfold Background.is_clearing in Hclear. unfold Background.onPortMessage.
    destruct (String.eqb_spec (msg_type m) "getEvents") as [Hm|_].
    + rewrite Hm in Hclear. discriminate.
    + destruct (String.eqb_spec (msg_type m) "clearEvents") as [Hm|_].
      * rewrite Hm. reflexivity.
      * simpl in Hclear. rewrite Hclear. reflexivity.
Qed.

Lemma run_app (pre post : list Background.request) (w : worker) :
  Background.run (pre ++ post) w = Background.run post (Background.run pre w).
Proof. unfold Background.run. apply foldl_app. Qed.

Lemma run_not_clearing (trace : list Background.request) (w : worker) :
  Forall (fun r => Background.clears r = false) trace ->
  capturedEvents (Background.run trace w) =
  (capturedEvents w ++ flat_map Background.arrivals trace)%list.
Proof.
  intros Htrace. revert w.
  induction Htrace as [|r trace Hr _ IH]; intros w; simpl.
  - symmetry. apply List.app_nil_r.
  - change (Background.run (r :: trace) w)
      with (Background.run trace (Background.serve r w)).
    rewrite IH, serve_not_clearing by exact Hr.
    rewrite <- List.app_assoc. reflexivity.
Qed.

(** C9. A [getEvents] request is answered with the buffer and leaves it
    as it was; a [getAndClearEvents] request is answered with the buffer
    and leaves it empty. The buffer at that point holds, in arrival order,
    the events that came in since it was last emptied: requests other than
    the two clearing ones only ever add at its end. *)
Theorem relay_buffer_reads (w : worker) (m : message) :
  (msg_type m = "getEvents" ->
   let after := mkWorker (capturedEvents w)
                  (responses w ++ [ResponseEvents (capturedEvents w)])
                  (notices w) (notify_valid w) in
   Background.serve (Background.FromExternal m) w = after /\
   Background.serve (Background.FromPort "web-logger" m) w = after) /\
  (msg_type m = "getAndClearEvents" ->
   let after := mkWorker []
                  (responses w ++ [ResponseEvents (capturedEvents w)])
                  (notices w) (notify_valid w) in
   Background.serve (Background.FromExternal m) w = after /\
   Background.serve (Background.FromPort "web-logger" m) w = after) /\
  (forall r, Background.clears r = false ->
     capturedEvents (Background.serve r w) =
     (capturedEvents w ++ Background.arrivals r)%list) /\
  (forall r, Background.clears r = true ->
     capturedEvents (Background.serve r w) = []) /\
  (forall pre c post,
     Background.clears c = true ->
     Forall (fun r => Background.clears r = false) post ->
     capturedEvents (Background.run (pre ++ c :: post) w) =
     flat_map Background.arrivals post) /\
  (forall valid post,
     Forall (fun r => Background.clears r = false) post ->
     capturedEvents (Background.run post (Background.loaded valid)) =
     flat_map Background.arrivals post).
Proof.
  split; [|split; [|split; [|split; [|split]]]].
  - intros Hm after. simpl.
    rewrite onMessageExternal_getEvents, onPortMessage_getEvents by exact Hm.
    split; reflexivity.
  - intros Hm after. simpl.
    rewrite onMessageExternal_getAndClearEvents,
      onPortMessage_getAndClearEvents by exact Hm.
    split; reflexivity.
  - intros r. apply serve_not_clearing.
  - intros r. apply serve_clearing.
  - intros pre c post Hc Hpost.
    rewrite run_app.
    change (Background.run (c :: post) (Background.run pre w))
      with (Background.run post (Background.serve c (Background.run pre w))).
    rewrite run_not_clearing, serve_clearing by assumption. reflexivity.
  - intros valid post Hpost. rewrite run_not_clearing by exact Hpost. reflexivity.
Qed.

Lemma relay_buffer_reads_witness :
  let w := Background.run Samples.polling_trace (Background.loaded true) in
  capturedEvents w =
    [ Background.with_tab_info Samples.click_data Samples.from_tab;
      Background.with_tab_info Samples.click_data (mkSender None) ] /\
  Background.serve (Background.FromExternal (Samples.ask "getAndClearEvents")) w
  = mkWorker [] (responses w ++ [ResponseEvents (capturedEvents w)])
             (notices w) (notify_valid w) /\
  Background.serve (Background.FromExternal (Samples.ask "getEvents")) w
  = mkWorker (capturedEvents w)
             (responses w ++ [ResponseEvents (capturedEvents w)])
             (notices w) (notify_valid w).
Proof.
  intros w.
  pose proof (relay_buffer_reads w (Samples.ask "getAndClearEvents"))
    as (_ & Hdrain & _).
  pose proof (relay_buffer_reads w (Samples.ask "getEvents"))
    as (Hread & _ & _ & _ & _ & Hsince).
  split; [|split].
  - apply (Hsince true Samples.polling_trace).
    repeat constructor.
  - apply (Hdrain eq_refl).
  - apply (Hread eq_refl).
Defined.

(** ** The timeline *)

Lemma kind_eqb_eq (a b : Timeline.eventKind) :
  Timeline.kind_eqb a b = true <-> a = b.
Proof. destruct a, b; simpl; split; intros H; try reflexivity; discriminate. Qed.

Lemma key_eqb_eq (a b : Z * string * Timeline.eventKind) :
  Timeline.key_eqb a b = true <-> a = b.
Proof.
  destruct a as [[ta sa] ka], b as [[tb sb] kb]. unfold Timeline.key_eqb. simpl.
  rewrite !andb_true_iff, Z.eqb_eq, String.eqb_eq, kind_eqb_eq.
  split.
  - intros [[-> ->] ->]. reflexivity.
  - intros [= -> -> ->]. auto.
Qed.

Lemma has_key_own (e : Timeline.InteractionEvent) :
  Timeline.has_key (Timeline.content_key e) (Timeline.Interaction e) = true.
Proof. simpl. apply key_eqb_eq. reflexivity. Qed.

Lemma count_key_app (k : Z * string * Timeline.eventKind)
    (l1 l2 : list Timeline.event) :
  Timeline.count_key k (l1 ++ l2) =
  (Timeline.count_key k l1 + Timeline.count_key k l2)%nat.
Proof.
  unfold Timeline.count_key. rewrite List.filter_app. apply List.length_app.
Qed.

Lemma count_key_cons (k : Z * string * Timeline.eventKind)
    (ev : Timeline.event) (l : list Timeline.event) :
  Timeline.count_key k (ev :: l) =
  ((if Timeline.has_key k ev then 1 else 0) + Timeline.count_key k l)%nat.
Proof.
  unfold Timeline.count_key. simpl. destruct (Timeline.has_key k ev); reflexivity.
Qed.

Lemma existsb_count_key (k : Z * string * Timeline.eventKind)
    (l : list Timeline.event) :
  existsb (Timeline.has_key k) l = negb (Timeline.count_key k l =? 0)%nat.
Proof.
  induction l as [|ev l IH]; [reflexivity|].
  rewrite count_key_cons. simpl. rewrite IH.
  destruct (Timeline.has_key k ev); reflexivity.
Qed.

(** Sorting moves entries, it neither adds nor drops one. *)
Lemma count_key_insert_sorted (k : Z * string * Timeline.eventKind)
    (ev : Timeline.event) (l : list Timeline.event) :
  Timeline.count_key k (Timeline.insert_sorted ev l) =
  Timeline.count_key k (ev :: l).
Proof.
  induction l as [|x l IH]; simpl; [reflexivity|].
  destruct (Timeline.event_leb ev x); [reflexivity|].
  rewrite !count_key_cons in *. rewrite IH. lia.
Qed.

Lemma count_key_sort_events (k : Z * string * Timeline.eventKind)
    (l : list Timeline.event) :
  Timeline.count_key k (Timeline.sort_events l) = Timeline.count_key k l.
Proof.
  induction l as [|ev l IH]; simpl; [reflexivity|].
  rewrite count_key_insert_sorted, !count_key_cons, IH. reflexivity.
Qed.

Lemma start_deduplicated (now : Z) (url domain : string) :
  recording_deduplicated (Timeline.start now url domain).
Proof. split; [reflexivity|]. intros k. simpl. unfold Timeline.count_key. simpl. lia. Qed.

Lemma append_deduplicated (ev : Timeline.event) (s : Timeline.Session) :
  recording_deduplicated s -> recording_deduplicated (Timeline.append ev s).
Proof.
  intros [Hrec Huniq]. unfold Timeline.append. rewrite Hrec.
  destruct ev as [e|n].
  - rewrite existsb_count_key.
    destruct (Nat.eqb_spec (Timeline.count_key (Timeline.content_key e)
                              (Timeline.events s)) 0) as [Hzero|Hpos]; simpl.
    + split; [reflexivity|]. intros k. simpl.
      rewrite count_key_app, count_key_cons. simpl.
      destruct (Timeline.key_eqb (Timeline.content_key e) k) eqn:Hk.
      * apply key_eqb_eq in Hk. subst k. rewrite Hzero.
        unfold Timeline.count_key. simpl. lia.
      * specialize (Huniq k). unfold Timeline.count_key at 2. simpl. lia.
    + split; assumption.
  - simpl. split; [reflexivity|]. intros k. simpl.
    rewrite count_key_app, count_key_cons. simpl.
    specialize (Huniq k). unfold Timeline.count_key at 2. simpl. lia.
Qed.

Lemma append_records_key (e : Timeline.InteractionEvent) (s : Timeline.Session) :
  recording_deduplicated s ->
  Timeline.count_key (Timeline.content_key e)
    (Timeline.events (Timeline.append (Timeline.Interaction e) s)) = 1%nat.
Proof.
  intros [Hrec Huniq]. unfold Timeline.append. rewrite Hrec.
  rewrite existsb_count_key. specialize (Huniq (Timeline.content_key e)).
  destruct (Nat.eqb_spec (Timeline.count_key (Timeline.content_key e)
                            (Timeline.events s)) 0) as [Hzero|Hpos]; simpl.
  - rewrite count_key_app, count_key_cons, Hzero.
    pose proof (has_key_own e) as Hown. simpl in Hown. simpl. rewrite Hown.
    unfold Timeline.count_key. simpl. lia.
  - lia.
Qed.

Lemma append_keeps_key (k : Z * string * Timeline.eventKind)
    (ev : Timeline.event) (s : Timeline.Session) :
  recording_deduplicated s ->
  Timeline.count_key k (Timeline.events s) = 1%nat ->
  Timeline.count_key k (Timeline.events (Timeline.append ev s)) = 1%nat.
Proof.
  intros Hs Hone.
  pose proof (append_deduplicated ev s Hs) as [_ Huniq]. specialize (Huniq k).
  assert (Timeline.count_key k (Timeline.events s)
          <= Timeline.count_key k (Timeline.events (Timeline.append ev s)))%nat;
    [|lia].
  destruct Hs as [Hrec _]. unfold Timeline.append. rewrite Hrec.
  destruct (match ev with
            | Timeline.Interaction e =>
                existsb (Timeline.has_key (Timeline.content_key e)) (Timeline.events s)
            | Timeline.Network _ => false
            end); simpl; [lia|].
  rewrite count_key_app. lia.
Qed.

Lemma receive_all_deduplicated (ds : list Timeline.delivery) (s : Timeline.Session) :
  recording_deduplicated s -> recording_deduplicated (Timeline.receive_all ds s).
Proof.
  revert s. induction ds as [|d ds IH]; intros s Hs; simpl; [exact Hs|].
  apply IH. apply append_deduplicated. exact Hs.
Qed.

Lemma receive_all_keeps_key (k : Z * string * Timeline.eventKind)
    (ds : list Timeline.delivery) (s : Timeline.Session) :
  recording_deduplicated s ->
  Timeline.count_key k (Timeline.events s) = 1%nat ->
  Timeline.count_key k (Timeline.events (Timeline.receive_all ds s)) = 1%nat.
Proof.
  revert s. induction ds as [|d ds IH]; intros s Hs Hone; simpl; [exact Hone|].
  apply IH.
  - apply append_deduplicated. exact Hs.
  - apply append_keeps_key; assumption.
Qed.

Lemma receive_all_app (ds1 ds2 : list Timeline.delivery) (s : Timeline.Session) :
  Timeline.receive_all (ds1 ++ ds2) s =
  Timeline.receive_all ds2 (Timeline.receive_all ds1 s).
Proof. unfold Timeline.receive_all. apply foldl_app. Qed.

Lemma finalize_events (now : Z) (s : Timeline.Session) :
  Timeline.endTime s = None ->
  Timeline.events (Timeline.finalize now s) = Timeline.sort_events (Timeline.events s).
Proof. intros Hrec. unfold Timeline.finalize. rewrite Hrec. reflexivity. Qed.

Lemma finalize_idempotent (now later : Z) (s : Timeline.Session) :
  Timeline.finalize later (Timeline.finalize now s) = Timeline.finalize now s.
Proof.
  unfold Timeline.finalize.
  destruct (Timeline.endTime s) eqn:Hend; simpl; [rewrite Hend|]; reflexivity.
Qed.

Lemma append_after_finalize (now : Z) (ev : Timeline.event) (s : Timeline.Session) :
  Timeline.append ev (Timeline.finalize now s) = Timeline.finalize now s.
Proof.
  unfold Timeline.append, Timeline.finalize.
  destruct (Timeline.endTime s) eqn:Hend; simpl; [rewrite Hend|]; reflexivity.
Qed.

Lemma event_leb_total (a b : Timeline.event) :
  Timeline.event_leb a b = false -> Timeline.event_leb b a = true.
Proof.
  unfold Timeline.event_leb. intros Hab.
  apply orb_false_iff in Hab as [Hlt Heq].
  apply Z.ltb_ge in Hlt.
  destruct (Z.ltb_spec (Timeline.event_timestamp b) (Timeline.event_timestamp a))
    as [_|Hge]; [reflexivity|].
  assert (Timeline.event_timestamp a = Timeline.event_timestamp b) as Hsame by lia.
  rewrite Hsame, Z.eqb_refl in *. simpl in *.
  apply Nat.leb_gt in Heq. apply Nat.leb_le. lia.
Qed.

Lemma insert_sorted_Sorted (ev : Timeline.event) (l : list Timeline.event) :
  Sorted (fun a b => Timeline.event_leb a b = true) l ->
  Sorted (fun a b => Timeline.event_leb a b = true) (Timeline.insert_sorted ev l).
Proof.
  induction l as [|x l IH]; intros Hl; simpl.
  - repeat constructor.
  - destruct (Timeline.event_leb ev x) eqn:Hle.
    + constructor; [exact Hl|]. constructor. exact Hle.
    + apply Sorted_inv in Hl as [Hl Hx]. constructor; [apply IH; exact Hl|].
      destruct l as [|y l]; simpl.
      * constructor. apply event_leb_total. exact Hle.
      * destruct (Timeline.event_leb ev y).
        -- constructor. apply event_leb_total. exact Hle.
        -- constructor. apply HdRel_inv in Hx. exact Hx.
Qed.

(** The finalized order: each entry is at or before its successor. *)
Lemma sort_events_Sorted (l : list Timeline.event) :
  Sorted (fun a b => Timeline.event_leb a b = true) (Timeline.sort_events l).
Proof.
  induction l as [|ev l IH]; simpl; [constructor|].
  apply insert_sorted_Sorted. exact IH.
Qed.

(** The relay's tab information leaves the three fields of the content
    key as the content script wrote them. *)
Lemma with_tab_info_content_key (data : gmap string jsval) (s : sender) :
  Background.with_tab_info data s !! "timestamp" = data !! "timestamp" /\
  Background.with_tab_info data s !! "selector" = data !! "selector" /\
  Background.with_tab_info data s !! "event" = data !! "event".
Proof.
  unfold Background.with_tab_info.
  repeat split; rewrite !lookup_insert_ne by discriminate; reflexivity.
Qed.

(** C2. Two interaction events with the same content key (timestamp,
    selector, eventKind) that reach the timeline over two different
    channels, among any other deliveries, leave exactly one entry with
    that key in the finalized timeline. *)
Theorem duplicate_delivery_recorded_once
    (now : Z) (url domain : string) (finish : Z)
    (before between after : list Timeline.delivery)
    (d1 d2 : Timeline.delivery) (e1 e2 : Timeline.InteractionEvent) :
  Timeline.via d1 <> Timeline.via d2 ->
  Timeline.carried d1 = Timeline.Interaction e1 ->
  Timeline.carried d2 = Timeline.Interaction e2 ->
  Timeline.content_key e1 = Timeline.content_key e2 ->
  Timeline.count_key (Timeline.content_key e1)
    (Timeline.events
       (Timeline.finalize finish
          (Timeline.receive_all (before ++ d1 :: between ++ d2 :: after)
             (Timeline.start now url domain)))) = 1%nat.
Proof.
  intros _ Hd1 Hd2 Hkey.
  pose proof (receive_all_deduplicated before _ (start_deduplicated now url domain))
    as Hbefore.
  rewrite receive_all_app.
  set (s0 := Timeline.receive_all before (Timeline.start now url domain)) in *.
  change (Timeline.receive_all (d1 :: between ++ d2 :: after) s0)
    with (Timeline.receive_all (between ++ d2 :: after) (Timeline.receive d1 s0)).
  pose proof (append_deduplicated (Timeline.carried d1) s0 Hbefore) as Hs1.
  pose proof (append_records_key e1 s0 Hbefore) as Hone.
  rewrite <- Hd1 in Hone. fold (Timeline.receive d1 s0) in Hs1, Hone.
  pose proof (receive_all_deduplicated (between ++ d2 :: after) _ Hs1) as [Hrec _].
  rewrite finalize_events by exact Hrec.
  rewrite count_key_sort_events.
  apply receive_all_keeps_key; assumption.
Qed.

Lemma duplicate_delivery_recorded_once_witness :
  Timeline.count_key (Timeline.content_key Samples.click_event)
    (Timeline.events
       (Timeline.finalize 1706000060000
          (Timeline.receive_all
             ([] ++
              Timeline.mkDelivery Timeline.RuntimeMessage
                (Timeline.Interaction Samples.click_event_mirrored)
              :: [Timeline.mkDelivery Timeline.ConsoleLine
                    (Timeline.Network Samples.a_request)] ++
              Timeline.mkDelivery Timeline.PolledBuffer
                (Timeline.Interaction Samples.click_event)
              :: [])
             (Timeline.start 1706000000000 "https://example.com/login"
                "example.com")))) = 1%nat.
Proof.
  apply (duplicate_delivery_recorded_once 1706000000000
           "https://example.com/login" "example.com" 1706000060000 [] _ []
           (Timeline.mkDelivery Timeline.RuntimeMessage
              (Timeline.Interaction Samples.click_event_mirrored))
           (Timeline.mkDelivery Timeline.PolledBuffer
              (Timeline.Interaction Samples.click_event))
           Samples.click_event_mirrored Samples.click_event).
  - discriminate.
  - reflexivity.
  - reflexivity.
  - reflexivity.
Defined.

(** * Further properties of the scripts *)

(** ** Strings *)

Lemma append_cons (c : ascii) (s t : string) :
  String c s ++ t = String c (s ++ t).
Proof. reflexivity. Qed.

Lemma append_nil_l (t : string) : "" ++ t = t.
Proof. reflexivity. Qed.

Lemma append_nil_r (s : string) : s ++ "" = s.
Proof. induction s as [|c s IH]; [reflexivity|]. rewrite append_cons, IH. reflexivity. Qed.

Lemma append_assoc (s t u : string) : (s ++ t) ++ u = s ++ (t ++ u).
Proof.
  induction s as [|c s IH]; [reflexivity|]. rewrite !append_cons, IH. reflexivity.
Qed.

Lemma length_append (s t : string) :
  String.length (s ++ t) = (String.length s + String.length t)%nat.
Proof.
  induction s as [|c s IH]; [reflexivity|]. rewrite append_cons. simpl.
  rewrite IH. reflexivity.
Qed.

Lemma toLowerCase_length (s : string) :
  String.length (JsString.toLowerCase s) = String.length s.
Proof. induction s as [|c s IH]; simpl; [reflexivity|]. rewrite IH. reflexivity. Qed.

Lemma trimStart_skip (lead s : string) :
  all_spaces lead = true -> JsString.trimStart (lead ++ s) = JsString.trimStart s.
Proof.
  induction lead as [|c lead IH]; [reflexivity|]. intros Hlead. simpl in Hlead.
  apply andb_true_iff in Hlead as [Hc Hlead].
  rewrite append_cons. simpl. rewrite Hc. auto.
Qed.

Lemma trimEnd_skip (s trail : string) :
  all_spaces trail = true -> JsString.trimEnd (s ++ trail) = JsString.trimEnd s.
Proof.
  intros Htrail. induction s as [|c s IH].
  - rewrite append_nil_l. simpl. clear -Htrail.
    induction trail as [|c trail IH]; [reflexivity|]. simpl in *.
    apply andb_true_iff in Htrail as [Hc Htrail]. rewrite IH, Hc by exact Htrail.
    reflexivity.
  - rewrite append_cons. simpl. rewrite IH. reflexivity.
Qed.

Lemma trimEnd_space_free (t : string) :
  space_free t = true -> JsString.trimEnd t = t.
Proof.
  induction t as [|c t IH]; [reflexivity|]. simpl.
  intros [Hc Ht]%andb_true_iff. rewrite IH by exact Ht.
  apply negb_true_iff in Hc. rewrite Hc. destruct t; reflexivity.
Qed.

Lemma trimEnd_app (s1 s2 : string) :
  JsString.trimEnd s2 <> "" ->
  JsString.trimEnd (s1 ++ s2) = s1 ++ JsString.trimEnd s2.
Proof.
  intros Hs2. induction s1 as [|c s1 IH]; [reflexivity|].
  rewrite !append_cons. simpl. rewrite IH.
  destruct (s1 ++ JsString.trimEnd s2) eqn:Happ; [|reflexivity].
  exfalso. destruct s1; [|discriminate Happ].
  rewrite append_nil_l in Happ. contradiction.
Qed.

Lemma split_spaces_from_nonempty (b : bool) (s : string) :
  JsString.split_spaces_from b s <> [].
Proof.
  revert b. induction s as [|c s IH]; intros b; simpl; [discriminate|].
  destruct (JsString.is_space c).
  - destruct b; [apply IH | discriminate].
  - destruct (JsString.split_spaces_from false s); discriminate.
Qed.

Lemma split_spaces_from_word (t s : string) :
  space_free t = true ->
  JsString.split_spaces_from false (t ++ s) =
  match JsString.split_spaces_from false s with
  | [] => [t]
  | piece :: pieces => (t ++ piece) :: pieces
  end.
Proof.
  induction t as [|c t IH]; intros Hfree; simpl in Hfree.
  - rewrite append_nil_l.
    destruct (JsString.split_spaces_from false s) eqn:Hs; [|reflexivity].
    exfalso. exact (split_spaces_from_nonempty _ _ Hs).
  - apply andb_true_iff in Hfree as [Hc Ht]. apply negb_true_iff in Hc.
    rewrite append_cons. simpl. rewrite Hc, IH by exact Ht.
    destruct (JsString.split_spaces_from false s) eqn:Hs; [|reflexivity].
    exfalso. exact (split_spaces_from_nonempty _ _ Hs).
Qed.

Lemma split_spaces_from_run_end (s : string) :
  match s with
  | EmptyString => True
  | String c _ => JsString.is_space c = false
  end ->
  JsString.split_spaces_from true s = JsString.split_spaces_from false s.
Proof. destruct s as [|c s]; [reflexivity|]. simpl. intros ->. reflexivity. Qed.

Lemma split_spaces_pieces_space_free (b : bool) (s : string) :
  Forall (fun piece => space_free piece = true) (JsString.split_spaces_from b s).
Proof.
  revert b. induction s as [|c s IH]; intros b; simpl.
  - repeat constructor.
  - destruct (JsString.is_space c) eqn:Hc.
    + destruct b; [apply IH|]. constructor; [reflexivity | apply IH].
    + specialize (IH false).
      destruct (JsString.split_spaces_from false s) as [|piece pieces].
      * repeat constructor. simpl. rewrite Hc. reflexivity.
      * apply Forall_cons in IH as [Hpiece Hpieces].
        constructor; [|exact Hpieces]. simpl. rewrite Hc, Hpiece. reflexivity.
Qed.

(** ** Selectors by class *)

Lemma class_name_starts (t s : string) :
  class_name t ->
  exists c rest, t ++ s = String c rest /\ JsString.is_space c = false.
Proof.
  intros [Hne Hfree]. destruct t as [|c t]; [contradiction|].
  simpl in Hfree. apply andb_true_iff in Hfree as [Hc _].
  apply negb_true_iff in Hc. exists c, (t ++ s). split; [reflexivity | exact Hc].
Qed.

Lemma concat_class_names_starts (ts : list string) (s : string) :
  ts <> [] -> Forall class_name ts ->
  exists c rest,
    String.concat " " ts ++ s = String c rest /\ JsString.is_space c = false.
Proof.
  intros Hne Hts. destruct Hts as [|t ts Ht Hts]; [contradiction|].
  destruct ts as [|t2 ts]; simpl.
  - apply class_name_starts. exact Ht.
  - rewrite append_assoc. apply class_name_starts. exact Ht.
Qed.

Lemma trimStart_word (s : string) (c : ascii) (rest : string) :
  s = String c rest -> JsString.is_space c = false -> JsString.trimStart s = s.
Proof. intros -> Hc. simpl. rewrite Hc. reflexivity. Qed.

Lemma trimEnd_class_names (ts : list string) :
  ts <> [] -> Forall class_name ts ->
  JsString.trimEnd (String.concat " " ts) = String.concat " " ts.
Proof.
  intros Hne Hts. induction Hts as [|t ts Ht Hts IH]; [contradiction|].
  destruct ts as [|t2 ts].
  - simpl. apply trimEnd_space_free. apply Ht.
  - change (String.concat " " (t :: t2 :: ts))
      with (t ++ " " ++ String.concat " " (t2 :: ts)).
    rewrite <- append_assoc.
    assert (JsString.trimEnd (String.concat " " (t2 :: ts)) <> "") as Hrest.
    { rewrite IH by discriminate.
      destruct (concat_class_names_starts (t2 :: ts) "" ltac:(discriminate) Hts)
        as (c & rest & Heq & _).
      rewrite append_nil_r in Heq. rewrite Heq. discriminate. }
    rewrite trimEnd_app by exact Hrest. rewrite IH by discriminate. reflexivity.
Qed.

Lemma split_spaces_class_names (ts : list string) :
  ts <> [] -> Forall class_name ts ->
  JsString.split_spaces (String.concat " " ts) = ts.
Proof.
  intros Hne Hts. unfold JsString.split_spaces.
  induction Hts as [|t ts Ht Hts IH]; [contradiction|].
  destruct ts as [|t2 ts].
  - simpl. rewrite <- (append_nil_r t) at 1.
    rewrite split_spaces_from_word by apply Ht. simpl.
    rewrite append_nil_r. reflexivity.
  - change (String.concat " " (t :: t2 :: ts))
      with (t ++ String " " (String.concat " " (t2 :: ts))).
    rewrite split_spaces_from_word by apply Ht.
    change (JsString.split_spaces_from false
              (String " " (String.concat " " (t2 :: ts))))
      with ("" :: JsString.split_spaces_from true (String.concat " " (t2 :: ts))).
    rewrite split_spaces_from_run_end.
    + rewrite IH by discriminate. rewrite append_nil_r. reflexivity.
    + destruct (concat_class_names_starts (t2 :: ts) "" ltac:(discriminate) Hts)
        as (c & rest & Heq & Hc).
      rewrite append_nil_r in Heq. rewrite Heq. exact Hc.
Qed.

Lemma filter_nonempty_class_names (ts : list string) :
  Forall class_name ts -> List.filter JsString.nonempty ts = ts.
Proof.
  induction 1 as [|t ts [Hne _] _ IH]; [reflexivity|]. simpl.
  rewrite (nonempty_true _ Hne), IH. reflexivity.
Qed.

(** The class names an author wrote, separated by single spaces and with
    any white space around them, are the tokens, in the order written. *)
Lemma class_tokens_authored (lead trail : string) (ts : list string) :
  all_spaces lead = true -> all_spaces trail = true ->
  ts <> [] -> Forall class_name ts ->
  Content.class_tokens (lead ++ String.concat " " ts ++ trail) = ts.
Proof.
  intros Hlead Htrail Hne Hts. unfold Content.class_tokens, JsString.trim.
  rewrite trimStart_skip by exact Hlead.
  destruct (concat_class_names_starts ts trail Hne Hts) as (c & rest & Heq & Hc).
  rewrite (trimStart_word _ c rest Heq Hc).
  rewrite trimEnd_skip by exact Htrail.
  rewrite trimEnd_class_names, split_spaces_class_names by assumption.
  apply filter_nonempty_class_names. exact Hts.
Qed.

(** X1. [generateSelector] returns null exactly for a null target and for a
    target without a tag name; every selector it returns is a non-empty
    string. *)
Theorem generateSelector_null_iff (target : option element) :
  (Content.generateSelector target = None <->
   match target with
   | None => True
   | Some e => tagName e = ""
   end) /\
  (forall sel, Content.generateSelector target = Some sel -> sel <> "").
Proof.
  destruct target as [e|]; [|split; [split; auto | discriminate]].
  unfold Content.generateSelector.
  destruct (tagName e) as [|c tag] eqn:Htag; simpl.
  - split; [split; auto | discriminate].
  - split.
    + split; [|discriminate]. intros Hnone. exfalso. revert Hnone.
      destruct (JsString.nonempty (elId e)); [discriminate|].
      destruct (className e) as [cls|]; [|discriminate].
      destruct (JsString.nonempty cls); [|discriminate].
      destruct (0 <? List.length (Content.class_tokens cls))%nat; discriminate.
    + intros sel.
      destruct (JsString.nonempty (elId e)); [intros [= <-]; discriminate|].
      destruct (className e) as [cls|]; [|intros [= <-]; discriminate].
      destruct (JsString.nonempty cls); [|intros [= <-]; discriminate].
      destruct (0 <? List.length (Content.class_tokens cls))%nat;
        intros [= <-]; discriminate.
Qed.

Lemma generateSelector_null_iff_witness :
  Content.generateSelector None = None /\
  Content.generateSelector (Some (Samples.plain 1 "" "x" "a" "" None)) = None /\
  "#submit-btn" <> "".
Proof.
  split; [|split].
  - apply (proj1 (generateSelector_null_iff None)). exact I.
  - apply (proj1 (generateSelector_null_iff
                    (Some (Samples.plain 1 "" "x" "a" "" None)))).
    reflexivity.
  - apply (proj2 (generateSelector_null_iff (Some Samples.button_with_id))).
    reflexivity.
Defined.

(** X2. For an element with a tag name and no id: when its [className] is
    a string that lists class names separated by single spaces (with any
    white space around the list), the selector is the lower-cased tag name
    and those names in the order written, each after a dot, whatever the
    parent and siblings; when its [className] is not a string, as on an SVG
    element, its classes are not looked at and the selector is the one by
    position. *)
Theorem generateSelector_class (e : element) :
  tagName e <> "" ->
  elId e = "" ->
  (forall lead trail ts,
     className e = ClassString (lead ++ String.concat " " ts ++ trail) ->
     all_spaces lead = true -> all_spaces trail = true ->
     ts <> [] -> Forall class_name ts ->
     Content.generateSelector (Some e) =
     Some (JsString.toLowerCase (tagName e) ++ "." ++ String.concat "." ts)) /\
  (className e = ClassObject ->
   Content.generateSelector (Some e) =
   Some (JsString.toLowerCase (tagName e) ++ ":nth-child(" ++
         JsString.of_int
           match parentElement e with
           | Some p =>
               (Content.indexOf (List.filter (same_tag e) (children p)) (node e)
                + 1)%Z
           | None => 1%Z
           end ++ ")")).
Proof.
  intros Htag Hid. split.
  - intros lead trail ts Hcls Hlead Htrail Hne Hts.
    unfold Content.generateSelector.
    rewrite (nonempty_true _ Htag), (nonempty_false _ Hid), Hcls. simpl negb.
    cbv iota.
    rewrite class_tokens_authored by assumption.
    assert (JsString.nonempty (lead ++ String.concat " " ts ++ trail) = true) as ->.
    { apply nonempty_length. rewrite !length_append.
      destruct (concat_class_names_starts ts "" Hne Hts) as (c & rest & Heq & _).
      rewrite append_nil_r in Heq. rewrite Heq. simpl. lia. }
    destruct ts as [|t ts]; [contradiction|]. reflexivity.
  - intros Hcls. apply generateSelector_fallback; [exact Htag | exact Hid |].
    rewrite Hcls. exact I.
Qed.

Lemma generateSelector_class_witness :
  Content.generateSelector
    (Some (Samples.plain 2 "BUTTON" "" "  primary large " "Go"
             (Some (mkParent [mkChild 1 "BUTTON"; mkChild 2 "BUTTON"]))))
  = Some "button.primary.large"
  /\ Content.generateSelector
       (Some (mkElement 1 "svg" "" ClassObject {["class" := "icon"]} None None
                JUndefined None))
     = Some "svg:nth-child(1)".
Proof.
  split.
  - apply (proj1 (generateSelector_class
                    (Samples.plain 2 "BUTTON" "" "  primary large " "Go"
                       (Some (mkParent [mkChild 1 "BUTTON"; mkChild 2 "BUTTON"])))
                    ltac:(discriminate) eq_refl)
             "  " " " ["primary"; "large"]);
      try reflexivity; try discriminate.
    repeat constructor; discriminate.
  - apply (proj2 (generateSelector_class
                    (mkElement 1 "svg" "" ClassObject {["class" := "icon"]} None
                       None JUndefined None)
                    ltac:(discriminate) eq_refl)).
    reflexivity.
Defined.

(** X3. Whatever the class attribute holds, no class token is empty and
    none contains white space: a selector by class has no empty segment
    between two dots. *)
Theorem class_tokens_clean (cls : string) :
  Forall class_name (Content.class_tokens cls).
Proof.
  unfold Content.class_tokens, JsString.split_spaces.
  pose proof (split_spaces_pieces_space_free false (JsString.trim cls)) as Hfree.
  induction Hfree as [|piece pieces Hpiece _ IH]; simpl; [constructor|].
  destruct (JsString.nonempty piece) eqn:Hne; [|exact IH].
  constructor; [|exact IH]. split; [|exact Hpiece].
  intros ->. discriminate Hne.
Qed.

(** ** Attributes, text and input values *)

Lemma getAttributes_fold (attrs : gmap string string) (names : list string)
    (acc : gmap string string) (k : string) :
  foldl (fun acc attr =>
           match attrs !! attr with
           | Some v => <[attr := v]> acc
           | None => acc
           end) acc names !! k =
  if bool_decide (k ∈ names)
  then match attrs !! k with
       | Some v => Some v
       | None => acc !! k
       end
  else acc !! k.
Proof.
  revert acc. induction names as [|a names IH]; intros acc; simpl; [reflexivity|].
  rewrite IH. destruct (decide (a = k)) as [->|Hak].
  - rewrite (bool_decide_eq_true_2 (k ∈ k :: names)) by left.
    destruct (attrs !! k) as [v|] eqn:Hk.
    + destruct (bool_decide (k ∈ names)); [reflexivity | apply lookup_insert_eq].
    + destruct (bool_decide (k ∈ names)); reflexivity.
  - assert (bool_decide (k ∈ a :: names) = bool_decide (k ∈ names)) as ->.
    { apply bool_decide_ext. rewrite elem_of_cons.
      split; [intros [->|Hin]; [contradiction | exact Hin] | right; assumption]. }
    destruct (attrs !! a) as [va|]; [|reflexivity].
    rewrite lookup_insert_ne by exact Hak. reflexivity.
Qed.

Lemma getAttributes_whitelisted (e : element) (k : string) :
  Content.getAttributes e !! k =
  if bool_decide (k ∈ Content.relevantAttrs) then attributes e !! k else None.
Proof.
  unfold Content.getAttributes. rewrite getAttributes_fold, lookup_empty.
  destruct (bool_decide (k ∈ Content.relevantAttrs)); [|reflexivity].
  destruct (attributes e !! k); reflexivity.
Qed.

(** X4. The attribute bag of a record is the element's attributes cut down
    to the nine whitelisted names: a whitelisted attribute is there with
    its text exactly when the element has it, any other name is absent. *)
Theorem getAttributes_lookup (e : element) (k : string) :
  (k ∈ Content.relevantAttrs -> Content.getAttributes e !! k = attributes e !! k) /\
  (k ∉ Content.relevantAttrs -> Content.getAttributes e !! k = None) /\
  (forall v, Content.getAttributes e !! k = Some v -> attributes e !! k = Some v).
Proof.
  rewrite getAttributes_whitelisted. split; [|split].
  - intros Hk. rewrite bool_decide_eq_true_2 by exact Hk. reflexivity.
  - intros Hk. rewrite bool_decide_eq_false_2 by exact Hk. reflexivity.
  - intros v. destruct (bool_decide (k ∈ Content.relevantAttrs));
      [auto | discriminate].
Qed.

Lemma getAttributes_lookup_witness :
  Content.getAttributes
    (mkElement 1 "A" "" (ClassString "")
       (<["href" := "/next"]> (<["title" := "Next"]> ∅))
       (Some "Next") None JUndefined None) !! "title" = None.
Proof.
  apply (proj1 (proj2 (getAttributes_lookup
           (mkElement 1 "A" "" (ClassString "")
              (<["href" := "/next"]> (<["title" := "Next"]> ∅))
              (Some "Next") None JUndefined None) "title"))).
  vm_compute. intros Hin. repeat (apply elem_of_cons in Hin as [Hin|Hin];
    [discriminate Hin|]). inversion Hin.
Defined.

(** X5. The attribute bag is not redacted. For a password-typed field that
    has a [value] attribute, the record of an input event has the value
    entry null and still carries the attribute's text under
    [attributes.value]. *)
Theorem password_value_attribute_kept
    (JSON_stringify : gmap string jsval -> string)
    (p : page) (e : element) (v : string) :
  elType e = Some "password" ->
  attributes e !! "value" = Some v ->
  exists rec bag,
    delivers JSON_stringify (Content.handleInput JSON_stringify e) p rec /\
    rec !! "value" = Some JNull /\
    rec !! "attributes" = Some (JDict bag) /\
    bag !! "value" = Some v.
Proof.
  intros Ht Hv. do 2 eexists.
  split; [apply handleInput_delivers|].
  split; [rewrite createLogEntry_value_extra, getInputValue_password by exact Ht;
          reflexivity|].
  split.
  - unfold Content.createLogEntry. rewrite obj_literal_lookup. reflexivity.
  - rewrite getAttributes_whitelisted, Hv. reflexivity.
Qed.

Lemma password_value_attribute_kept_witness :
  exists rec bag,
    delivers Samples.no_serializer
      (Content.handleInput Samples.no_serializer
         (mkElement 5 "INPUT" "" (ClassString "")
            (<["value" := "hunter2"]> {["type" := "password"]})
            (Some "") (Some "password") (JStr "hunter2") None))
      Samples.fresh_page rec /\
    rec !! "value" = Some JNull /\
    rec !! "attributes" = Some (JDict bag) /\
    bag !! "value" = Some "hunter2".
Proof.
  apply (password_value_attribute_kept Samples.no_serializer Samples.fresh_page
           (mkElement 5 "INPUT" "" (ClassString "")
              (<["value" := "hunter2"]> {["type" := "password"]})
              (Some "") (Some "password") (JStr "hunter2") None)
           "hunter2").
  - reflexivity.
  - vm_compute. reflexivity.
Defined.

(** X6. The text of a record is never longer than the maximum plus the
    three characters of the marker; text of at most the maximum length is
    returned as it is, and an element without [innerText] gives the empty
    string. *)
Theorem getInnerText_bounded (e : element) :
  (String.length (Content.getInnerText e) <= Content.MAX_INNER_TEXT_LENGTH + 3)%nat /\
  (forall text, innerText e = Some text ->
     (String.length text <= Content.MAX_INNER_TEXT_LENGTH)%nat ->
     Content.getInnerText e = text) /\
  (innerText e = None -> Content.getInnerText e = "").
Proof.
  unfold Content.getInnerText. split; [|split].
  - set (text := match innerText e with
                 | Some t => if JsString.nonempty t then t else ""
                 | None => ""
                 end).
    destruct (Nat.ltb_spec Content.MAX_INNER_TEXT_LENGTH (String.length text))
      as [Hlong|Hshort].
    + rewrite js_substring_from_0 by lia.
      rewrite length_append, substring_0_length by lia. simpl. lia.
    + lia.
  - intros text Htext Hlen. rewrite Htext.
    destruct text as [|c text]; [reflexivity|].
    change (JsString.nonempty (String c text)) with true. cbv iota.
    apply Nat.ltb_ge in Hlen. rewrite Hlen. reflexivity.
  - intros ->. reflexivity.
Qed.

Lemma getInnerText_bounded_witness :
  Content.getInnerText Samples.button_with_id = "Submit" /\
  Content.getInnerText
    (mkElement 1 "svg" "" ClassObject ∅ None None JUndefined None) = "".
Proof.
  split.
  - apply (proj1 (proj2 (getInnerText_bounded Samples.button_with_id)) "Submit").
    + reflexivity.
    + vm_compute. lia.
  - apply (proj2 (proj2 (getInnerText_bounded
             (mkElement 1 "svg" "" ClassObject ∅ None None JUndefined None)))).
    reflexivity.
Defined.

(** X7. [getInputValue] gives either null or the field's own value; it
    gives the field's value only for a field that is not password-typed and
    whose value is truthy, so it never gives the empty string, zero or
    undefined. *)
Theorem getInputValue_null_or_value (e : element) :
  (Content.getInputValue e = JNull \/
   (Content.getInputValue e = elValue e /\
    elType e <> Some "password" /\ truthy (elValue e) = true)) /\
  Content.getInputValue e <> JStr "" /\
  Content.getInputValue e <> JNum 0 /\
  Content.getInputValue e <> JUndefined.
Proof.
  unfold Content.getInputValue.
  destruct (Content.is_password (elType e)) eqn:Hpw.
  - repeat split; try discriminate. left. reflexivity.
  - unfold js_or. destruct (truthy (elValue e)) eqn:Htruthy.
    + split.
      * right. split; [reflexivity|]. split; [|reflexivity].
        intros Ht. rewrite Ht in Hpw. discriminate Hpw.
      * repeat split; intros Hv; rewrite Hv in Htruthy; discriminate Htruthy.
    + repeat split; try discriminate. left. reflexivity.
Qed.

(** ** Form values, in full *)

(** X8. Under one name the form values hold one value only: that of the
    last entry of the name in the form's data set, the earlier ones being
    overwritten. This is so for a name that makes a valid name test and
    whose first element inside the form, if there is one, is not
    password-typed, whenever [getFormValues] returns. *)
Theorem getFormValues_last_wins
    (selector_engine : string -> form -> option (option field))
    (f : form) (n v : string) (x : form_value)
    (earlier later : list (string * form_value))
    (values : gmap string form_value) (p p' : page) :
  formData_entries f = (earlier ++ (n, x) :: later)%list ->
  Forall (fun entry => entry.1 <> n) later ->
  n <> "__proto__" ->
  quoted_name n = Equals v ->
  Content.is_password_field (first_named f v) = false ->
  Content.getFormValues selector_engine f p = Eff.Returned values p' ->
  values !! n = Some x.
Proof.
  intros Hentries Hlater Hproto Hv Hfirst Hrun.
  apply getFormValues_returned in Hrun as (_ & _ & Hlookup).
  rewrite (Hlookup n Hproto), (query_outcome_resolved _ _ _ _ Hv). simpl.
  rewrite Hfirst, Hentries, last_value_app. simpl.
  apply last_value_none in Hlater. rewrite Hlater, String.eqb_refl. reflexivity.
Qed.

Lemma getFormValues_last_wins_witness :
  exists values,
    Content.getFormValues Samples.no_engine
      (mkForm (Samples.plain 4 "FORM" "prefs" "" "" None)
         [ Samples.control "topic" "checkbox" "news";
           mkField (Some "tags") (Some "select-multiple")
             [("tags", TextValue "a"); ("tags", TextValue "b")] true;
           Samples.control "topic" "checkbox" "sport";
           mkField (Some "topic") (Some "checkbox") [] true ])
      Samples.fresh_page = Eff.Returned values Samples.fresh_page /\
    values !! "topic" = Some (TextValue "sport") /\
    values !! "tags" = Some (TextValue "b").
Proof.
  eexists. split; [reflexivity|]. split.
  - apply (getFormValues_last_wins Samples.no_engine
             (mkForm (Samples.plain 4 "FORM" "prefs" "" "" None)
                [ Samples.control "topic" "checkbox" "news";
                  mkField (Some "tags") (Some "select-multiple")
                    [("tags", TextValue "a"); ("tags", TextValue "b")] true;
                  Samples.control "topic" "checkbox" "sport";
                  mkField (Some "topic") (Some "checkbox") [] true ])
             "topic" "topic" (TextValue "sport")
             [("topic", TextValue "news"); ("tags", TextValue "a");
              ("tags", TextValue "b")] []
             _ Samples.fresh_page Samples.fresh_page);
      try reflexivity; [constructor | discriminate].
  - apply (getFormValues_last_wins Samples.no_engine
             (mkForm (Samples.plain 4 "FORM" "prefs" "" "" None)
                [ Samples.control "topic" "checkbox" "news";
                  mkField (Some "tags") (Some "select-multiple")
                    [("tags", TextValue "a"); ("tags", TextValue "b")] true;
                  Samples.control "topic" "checkbox" "sport";
                  mkField (Some "topic") (Some "checkbox") [] true ])
             "tags" "tags" (TextValue "b")
             [("topic", TextValue "news"); ("tags", TextValue "a")]
             [("topic", TextValue "sport")]
             _ Samples.fresh_page Samples.fresh_page);
      try reflexivity; [repeat constructor; discriminate | discriminate].
Defined.

(** X9. The form values that [getFormValues] returns have entries only
    under names of the form's data set (the names of submitted controls
    and the names given by [dirname]): a name that no entry of the data
    set bears is absent. There is never an entry under [__proto__]. *)
Theorem getFormValues_absent
    (selector_engine : string -> form -> option (option field))
    (f : form) (values : gmap string form_value) (p p' : page) :
  Content.getFormValues selector_engine f p = Eff.Returned values p' ->
  (forall n, Forall (fun entry => entry.1 <> n) (formData_entries f) ->
     values !! n = None) /\
  (forall n x, values !! n = Some x ->
     exists y, In (n, y) (formData_entries f)) /\
  values !! "__proto__" = None.
Proof.
  intros Hrun. apply getFormValues_returned in Hrun as (_ & Hproto & Hlookup).
  assert (forall n, Forall (fun entry => entry.1 <> n) (formData_entries f) ->
            values !! n = None) as Habsent.
  { intros n Hsilent. destruct (String.eqb_spec n "__proto__") as [->|Hn];
      [exact Hproto|].
    rewrite (Hlookup n Hn). apply last_value_none in Hsilent.
    rewrite Hsilent. reflexivity. }
  split; [exact Habsent|]. split; [|exact Hproto].
  intros n x Hx.
  destruct (List.Exists_dec (fun entry : string * form_value => entry.1 = n)
              (formData_entries f)) as [Hsome|Hnone].
  - intros entry. destruct (String.eqb_spec entry.1 n); [left | right]; assumption.
  - apply List.Exists_exists in Hsome as ([k y] & Hin & Hk). simpl in Hk.
    subst k. exists y. exact Hin.
  - exfalso. rewrite (Habsent n) in Hx; [discriminate Hx|].
    apply List.Forall_Exists_neg. exact Hnone.
Qed.

Lemma getFormValues_absent_witness :
  exists values,
    Content.getFormValues Samples.no_engine
      (mkForm (Samples.plain 4 "FORM" "" "" "" None)
         [ mkField (Some "agree") (Some "checkbox") [] true;
           mkField (Some "comment") (Some "text")
             [("comment", TextValue "hi"); ("comment.dir", TextValue "ltr")]
             true;
           Samples.control "__proto__" "text" "x" ])
      Samples.fresh_page = Eff.Returned values Samples.fresh_page /\
    values !! "agree" = None /\
    values !! "comment.dir" = Some (TextValue "ltr") /\
    values !! "__proto__" = None.
Proof.
  eexists. split; [reflexivity|].
  pose proof (getFormValues_absent Samples.no_engine
                (mkForm (Samples.plain 4 "FORM" "" "" "" None)
                   [ mkField (Some "agree") (Some "checkbox") [] true;
                     mkField (Some "comment") (Some "text")
                       [("comment", TextValue "hi");
                        ("comment.dir", TextValue "ltr")] true;
                     Samples.control "__proto__" "text" "x" ])
                _ Samples.fresh_page Samples.fresh_page eq_refl)
    as (Habsent & _ & Hproto).
  split; [|split; [vm_compute; reflexivity | exact Hproto]].
  apply Habsent. repeat constructor; discriminate.
Defined.

(** ** The shape of a record *)

Lemma written_last_is_Some (k : string) (props : list (string * jsval)) :
  is_Some (written_last k props) <-> k ∈ props.*1.
Proof.
  induction props as [|[k' v] props IH]; simpl.
  - split; [intros [? [=]] | intros Hin; inversion Hin].
  - rewrite elem_of_cons, <- IH. simpl.
    destruct (written_last k props) as [v'|].
    + split; [right; eauto | eauto].
    + destruct (String.eqb_spec k' k) as [->|Hne].
      * split; [left; reflexivity | eauto].
      * split; [intros [? [=]] | intros [->|[? [=]]]; contradiction].
Qed.

Lemma written_last_app (k : string) (l1 l2 : list (string * jsval)) :
  written_last k (l1 ++ l2) =
  match written_last k l2 with
  | Some v => Some v
  | None => written_last k l1
  end.
Proof.
  induction l1 as [|[k' v] l1 IH]; simpl.
  - destruct (written_last k l2); reflexivity.
  - rewrite IH. destruct (written_last k l2); reflexivity.
Qed.

(** X10. A record has the nine base fields and the fields of the extra
    data, nothing else; a field that the extra data gives last is recorded
    with that value, also over a base field. *)
Theorem createLogEntry_fields (p : page) (eventType : string) (e : element)
    (extraData : list (string * jsval)) (k : string) :
  (is_Some (Content.createLogEntry p eventType e extraData !! k) <->
   k ∈ base_fields \/ k ∈ extraData.*1) /\
  (forall earlier v, extraData = (earlier ++ [(k, v)])%list ->
     Content.createLogEntry p eventType e extraData !! k = Some v).
Proof.
  unfold Content.createLogEntry. rewrite obj_literal_lookup. split.
  - rewrite written_last_is_Some, fmap_app, elem_of_app. reflexivity.
  - intros earlier v ->. rewrite !written_last_app. simpl.
    rewrite String.eqb_refl. reflexivity.
Qed.

Lemma createLogEntry_fields_witness :
  Content.createLogEntry Samples.fresh_page "input" Samples.password_input
    [("value", JStr "typed"); ("value", JNull)] !! "value" = Some JNull.
Proof.
  apply (proj2 (createLogEntry_fields Samples.fresh_page "input"
                  Samples.password_input
                  [("value", JStr "typed"); ("value", JNull)] "value")
           [("value", JStr "typed")]).
  reflexivity.
Defined.

(** X11. Only the record of a submit has a [formValues] field: the records
    of click, input and change have none. A delivered submit record holds
    under [formValues] what [getFormValues] returned for the form, and the
    form's own selector; and whenever [getFormValues] returns, the submit
    is delivered with that. *)
Theorem formValues_only_on_submit
    (selector_engine : string -> form -> option (option field))
    (JSON_stringify : gmap string jsval -> string)
    (p : page) (e : element) (f : form) :
  (exists on_click on_input on_change,
     delivers JSON_stringify (Content.handleClick JSON_stringify e) p on_click /\
     on_click !! "formValues" = None /\
     delivers JSON_stringify (Content.handleInput JSON_stringify e) p on_input /\
     on_input !! "formValues" = None /\
     delivers JSON_stringify (Content.handleChange JSON_stringify e) p on_change /\
     on_change !! "formValues" = None) /\
  (forall on_submit,
     delivers JSON_stringify
       (Content.handleSubmit selector_engine JSON_stringify f) p on_submit ->
     exists values,
       Content.getFormValues selector_engine f p = Eff.Returned values p /\
       on_submit !! "formValues" = Some (JFormValues values) /\
       on_submit !! "selector" =
         Some (Content.selector_value
                 (Content.generateSelector (Some (form_element f))))) /\
  (forall values,
     Content.getFormValues selector_engine f p = Eff.Returned values p ->
     exists on_submit,
       delivers JSON_stringify
         (Content.handleSubmit selector_engine JSON_stringify f) p on_submit /\
       on_submit !! "formValues" = Some (JFormValues values)).
Proof.
  split; [|split].
  - do 3 eexists.
    split; [apply handleClick_delivers|].
    split; [unfold Content.createLogEntry; rewrite obj_literal_lookup; reflexivity|].
    split; [apply handleInput_delivers|].
    split; [unfold Content.createLogEntry; rewrite obj_literal_lookup; reflexivity|].
    split; [apply handleChange_delivers|].
    unfold Content.createLogEntry. rewrite obj_literal_lookup. reflexivity.
  - intros on_submit Hsubmit.
    apply handleSubmit_delivered in Hsubmit as (values & Hvalues & ->).
    exists values. split; [exact Hvalues|].
    split; unfold Content.createLogEntry; rewrite obj_literal_lookup; reflexivity.
  - intros values Hvalues. eexists.
    split; [apply handleSubmit_delivers; exact Hvalues|].
    unfold Content.createLogEntry. rewrite obj_literal_lookup. reflexivity.
Qed.

Lemma formValues_only_on_submit_witness :
  exists on_submit,
    delivers Samples.no_serializer
      (Content.handleSubmit Samples.no_engine Samples.no_serializer
         Samples.shared_name_form)
      Samples.fresh_page on_submit /\
    on_submit !! "formValues" =
      Some (JFormValues (<["secret" := TextValue "hunter2"]> ∅)).
Proof.
  apply (proj2 (proj2 (formValues_only_on_submit Samples.no_engine
                         Samples.no_serializer Samples.fresh_page
                         Samples.button_with_id Samples.shared_name_form))).
  vm_compute. reflexivity.
Defined.

(** ** The three channels, for a run of records *)

Lemma buffered_defined (now : Z) (href : string) (valid : bool)
    (out : list message) (con : list console_line)
    (b : list (gmap string jsval)) :
  buffered (mkPage now href valid out con (Some b)) = b.
Proof. reflexivity. Qed.

(** X12. Records sent one after the other come out on every channel in
    the order sent and none is lost: the polled buffer grows by exactly
    these records, the console gets one prefixed line for each, and runtime
    messaging gets one interaction message for each while it works (and
    nothing once it throws). *)
Theorem send_all_in_order (JSON_stringify : gmap string jsval -> string)
    (recs : list (gmap string jsval)) (p : page) :
  exists p',
    send_all JSON_stringify recs p = Eff.Returned tt p' /\
    buffered p' = (buffered p ++ recs)%list /\
    List.filter is_log (console p') =
      (List.filter is_log (console p) ++
       List.map (fun rec =>
                   ConsoleLog (Content.WEB_LOGGER_EVENT ++ JSON_stringify rec))
                recs)%list /\
    outbox p' =
      (outbox p ++
       if runtime_valid p
       then List.map (fun rec => mkMessage "interaction" (Some rec)) recs
       else [])%list /\
    runtime_valid p' = runtime_valid p.
Proof.
  revert p. induction recs as [|rec recs IH]; intros p.
  - exists p. simpl. rewrite !List.app_nil_r.
    destruct (runtime_valid p); rewrite ?List.app_nil_r; auto.
  - simpl. unfold Eff.bind. rewrite sendEvent_outcome.
    match goal with |- context [send_all _ _ ?q] => destruct (IH q)
      as (p' & Hrun & Hbuf & Hcon & Hout & Hvalid) end.
    exists p'. split; [exact Hrun|]. rewrite buffered_defined in Hbuf.
    simpl in *.
    split; [rewrite Hbuf, <- List.app_assoc; reflexivity|].
    split.
    + rewrite Hcon. destruct (runtime_valid p);
        rewrite !List.filter_app; simpl; rewrite ?List.app_nil_r,
          <- ?List.app_assoc; reflexivity.
    + split; [|exact Hvalid]. rewrite Hout.
      destruct (runtime_valid p); simpl;
        rewrite <- ?List.app_assoc; reflexivity.
Qed.

(** ** The worker's listeners *)

Lemma serve_port_as_external (m : message) (w : worker) :
  Background.serve (Background.FromPort "web-logger" m) w =
  Background.serve (Background.FromExternal m) w.
Proof.
  simpl. unfold Background.onMessageExternal, Background.onPortMessage.
  destruct (String.eqb_spec (msg_type m) "getEvents") as [Hm|_];
    [rewrite Hm; reflexivity|].
  destruct (String.eqb_spec (msg_type m) "clearEvents") as [Hm|_];
    [rewrite Hm; reflexivity|].
  destruct (String.eqb_spec (msg_type m) "getAndClearEvents") as [Hm|_];
    reflexivity.
Qed.

Lemma onMessage_interaction (m : message) (s : sender) (w : worker)
    (data : gmap string jsval) :
  msg_type m = "interaction" ->
  msg_data m = Some data ->
  Background.onMessage m s w =
    Eff.Returned true
      (mkWorker (capturedEvents w ++ [Background.with_tab_info data s])
         (responses w)
         (if notify_valid w
          then notices w ++
               [mkMessage "newInteraction"
                  (Some (Background.with_tab_info data s))]
          else notices w)
         (notify_valid w)).
Proof.
  intros Hm Hdata. unfold Background.onMessage. rewrite Hm, Hdata.
  destruct w as [evs rs ns valid]. destruct valid; reflexivity.
Qed.

(** X13. The external-message listener and the listener of a [web-logger]
    port do the same to the worker for every message: the same buffer and
    the same responses. *)
Theorem listeners_agree (m : message) (w : worker) :
  Background.serve (Background.FromExternal m) w =
  Background.serve (Background.FromPort "web-logger" m) w.
Proof.
  simpl. unfold Background.onConnect, Background.onMessageExternal,
    Background.onPortMessage. simpl.
  destruct (String.eqb_spec (msg_type m) "getEvents") as [Hget|_].
  - rewrite Hget. reflexivity.
  - destruct (String.eqb_spec (msg_type m) "clearEvents") as [Hclear|_].
    + rewrite Hclear. reflexivity.
    + destruct (String.eqb_spec (msg_type m) "getAndClearEvents") as [Hboth|_];
        reflexivity.
Qed.

(** X14. What the worker ignores: an external message of a type it does
    not know gets no response and changes nothing (the listener falls off
    its end); a message on a port of another name does nothing; a content
    message of another type than [interaction] changes nothing; an
    interaction message without data makes the listener throw before
    anything is stored. *)
Theorem worker_ignores (m : message) (s : sender) (w : worker) :
  (msg_type m <> "getEvents" -> msg_type m <> "clearEvents" ->
   msg_type m <> "getAndClearEvents" ->
   Background.onMessageExternal m w = Eff.Returned false w) /\
  (forall port_name, port_name <> "web-logger" ->
     Background.serve (Background.FromPort port_name m) w = w) /\
  (msg_type m <> "interaction" ->
   Background.onMessage m s w = Eff.Returned true w) /\
  (msg_type m = "interaction" -> msg_data m = None ->
   Eff.returns (Background.onMessage m s w) = false /\
   Background.serve (Background.FromContent m s) w = w).
Proof.
  split; [|split; [|split]].
  - intros H1 H2 H3. unfold Background.onMessageExternal.
    destruct (String.eqb_spec (msg_type m) "getEvents"); [contradiction|].
    destruct (String.eqb_spec (msg_type m) "clearEvents"); [contradiction|].
    destruct (String.eqb_spec (msg_type m) "getAndClearEvents"); [contradiction|].
    reflexivity.
  - intros port_name Hname. simpl. unfold Background.onConnect.
    destruct (String.eqb_spec port_name "web-logger"); [contradiction|].
    reflexivity.
  - intros Hm. unfold Background.onMessage.
    destruct (String.eqb_spec (msg_type m) "interaction"); [contradiction|].
    reflexivity.
  - intros Hm Hdata. simpl. unfold Background.onMessage. rewrite Hm, Hdata.
    split; reflexivity.
Qed.

Lemma worker_ignores_witness :
  Background.onMessageExternal (Samples.ask "getevents") (Background.loaded true)
  = Eff.Returned false (Background.loaded true) /\
  Background.serve
    (Background.FromContent (Samples.ask "interaction") Samples.from_tab)
    (Background.loaded true) = Background.loaded true.
Proof.
  pose proof (worker_ignores (Samples.ask "getevents") Samples.from_tab
                (Background.loaded true)) as (Hunknown & _).
  pose proof (worker_ignores (Samples.ask "interaction") Samples.from_tab
                (Background.loaded true)) as (_ & _ & _ & Hnodata).
  split.
  - apply Hunknown; discriminate.
  - apply Hnodata; reflexivity.
Defined.

(** X15. [clearEvents] empties the buffer and answers with success, on
    both listeners, without handing any event out. *)
Theorem clearEvents_drops (m : message) (w : worker) :
  msg_type m = "clearEvents" ->
  Background.serve (Background.FromExternal m) w =
    mkWorker [] (responses w ++ [ResponseSuccess]) (notices w) (notify_valid w) /\
  Background.serve (Background.FromPort "web-logger" m) w =
    mkWorker [] (responses w ++ [ResponseSuccess]) (notices w) (notify_valid w).
Proof.
  intros Hm. rewrite serve_port_as_external. simpl.
  unfold Background.onMessageExternal. rewrite Hm. split; reflexivity.
Qed.

Lemma clearEvents_drops_witness :
  capturedEvents
    (Background.serve (Background.FromExternal (Samples.ask "clearEvents"))
       (Background.run Samples.polling_trace (Background.loaded true))) = [].
Proof.
  rewrite (proj1 (clearEvents_drops (Samples.ask "clearEvents")
                    (Background.run Samples.polling_trace (Background.loaded true))
                    eq_refl)).
  reflexivity.
Defined.

(** X16. An interaction message is stored as its data with [tabId] and
    [tabUrl] set from the sender ([undefined] for a sender without a tab),
    over anything the data had under these two names; every other field is
    kept. The event is stored and the listener returns true also when the
    [newInteraction] notice cannot be sent; when it can, the notice carries
    the stored event. *)
Theorem onMessage_stores (m : message) (s : sender) (w : worker)
    (data : gmap string jsval) :
  msg_type m = "interaction" ->
  msg_data m = Some data ->
  let event := Background.with_tab_info data s in
  Background.onMessage m s w =
    Eff.Returned true
      (mkWorker (capturedEvents w ++ [event]) (responses w)
         (if notify_valid w
          then notices w ++ [mkMessage "newInteraction" (Some event)]
          else notices w)
         (notify_valid w)) /\
  event !! "tabId" = Some (Background.tab_prop tab_id s) /\
  event !! "tabUrl" = Some (Background.tab_prop tab_url s) /\
  (forall k, k <> "tabId" -> k <> "tabUrl" -> event !! k = data !! k).
Proof.
  intros Hm Hdata event. split; [|split; [|split]].
  - apply onMessage_interaction; assumption.
  - unfold event, Background.with_tab_info.
    rewrite lookup_insert_ne by discriminate. apply lookup_insert_eq.
  - apply lookup_insert_eq.
  - intros k Hid Hurl. unfold event, Background.with_tab_info.
    rewrite !lookup_insert_ne by congruence. reflexivity.
Qed.

Lemma onMessage_stores_witness :
  capturedEvents
    (Eff.final_state
       (Background.onMessage
          (mkMessage "interaction" (Some (<["tabId" := JStr "forged"]> Samples.click_data)))
          (mkSender None) (Background.loaded false)))
  = [Background.with_tab_info (<["tabId" := JStr "forged"]> Samples.click_data)
       (mkSender None)]
  /\ Background.with_tab_info (<["tabId" := JStr "forged"]> Samples.click_data)
       (mkSender None) !! "tabId" = Some JUndefined.
Proof.
  pose proof (onMessage_stores
                (mkMessage "interaction"
                   (Some (<["tabId" := JStr "forged"]> Samples.click_data)))
                (mkSender None) (Background.loaded false)
                (<["tabId" := JStr "forged"]> Samples.click_data)
                eq_refl eq_refl) as (Hrun & Hid & _).
  split.
  - rewrite Hrun. reflexivity.
  - exact Hid.
Defined.

(** ** Polling the worker *)





(** X18. Reading twice: a [getAndClearEvents] that follows another one
    directly is answered with no events, and so is a [getEvents] that
    follows one; two [getEvents] in a row get the same answer. *)
Theorem read_after_read (m1 m2 : message) (w : worker) :
  (msg_type m1 = "getAndClearEvents" ->
   msg_type m2 = "getAndClearEvents" \/ msg_type m2 = "getEvents" ->
   Background.run [Background.FromExternal m1; Background.FromExternal m2] w =
   mkWorker []
     (responses w ++ [ResponseEvents (capturedEvents w); ResponseEvents []])
     (notices w) (notify_valid w)) /\
  (msg_type m1 = "getEvents" -> msg_type m2 = "getEvents" ->
   Background.run [Background.FromExternal m1; Background.FromExternal m2] w =
   mkWorker (capturedEvents w)
     (responses w ++ [ResponseEvents (capturedEvents w);
                      ResponseEvents (capturedEvents w)])
     (notices w) (notify_valid w)).
Proof.
  split.
  - intros Hm1 Hm2. simpl.
    rewrite (onMessageExternal_getAndClearEvents m1 w Hm1). simpl.
    destruct Hm2 as [Hm2|Hm2].
    + rewrite onMessageExternal_getAndClearEvents by exact Hm2. simpl.
      rewrite <- List.app_assoc. reflexivity.
    + rewrite onMessageExternal_getEvents by exact Hm2. simpl.
      rewrite <- List.app_assoc. reflexivity.
  - intros Hm1 Hm2. simpl.
    rewrite (onMessageExternal_getEvents m1 w Hm1). simpl.
    rewrite onMessageExternal_getEvents by exact Hm2. simpl.
    rewrite <- List.app_assoc. reflexivity.
Qed.

Lemma read_after_read_witness :
  responses
    (Background.run
       [Background.FromExternal (Samples.ask "getAndClearEvents");
        Background.FromExternal (Samples.ask "getAndClearEvents")]
       (Background.run Samples.polling_trace (Background.loaded true)))
  = [ ResponseEvents
        [Background.with_tab_info Samples.click_data Samples.from_tab];
      ResponseEvents
        [ Background.with_tab_info Samples.click_data Samples.from_tab;
          Background.with_tab_info Samples.click_data (mkSender None) ];
      ResponseEvents [] ].
Proof.
  rewrite (proj1 (read_after_read (Samples.ask "getAndClearEvents")
                    (Samples.ask "getAndClearEvents")
                    (Background.run Samples.polling_trace
                       (Background.loaded true)))
             eq_refl (or_introl eq_refl)).
  reflexivity.
Defined.

(** ** From the page to the worker *)

(** X19. A record sent from a page whose runtime messaging works reaches
    the worker once: relaying the page's messages adds to the worker's
    buffer one event, the record with the sender's tab information, equal
    to the record of the polled buffer in every other field. From a page
    whose runtime messaging throws, nothing reaches the worker. *)
Theorem record_reaches_worker (JSON_stringify : gmap string jsval -> string)
    (rec : gmap string jsval) (p : page) (s : sender) (w : worker) :
  outbox p = [] ->
  let p' := Eff.final_state (Content.sendEvent JSON_stringify rec p) in
  (runtime_valid p = true ->
   capturedEvents (relay p' s w) =
     (capturedEvents w ++ [Background.with_tab_info rec s])%list /\
   webLoggerEvents p' = Some (buffered p ++ [rec])%list /\
   forall k, k <> "tabId" -> k <> "tabUrl" ->
     Background.with_tab_info rec s !! k = rec !! k) /\
  (runtime_valid p = false -> relay p' s w = w).
Proof.
  intros Hout p'. unfold p'. rewrite sendEvent_outcome. unfold relay. simpl.
  rewrite Hout. split.
  - intros Hvalid. rewrite Hvalid. simpl.
    rewrite (onMessage_interaction (mkMessage "interaction" (Some rec)) s w rec
               eq_refl eq_refl). simpl.
    split; [reflexivity|]. split; [reflexivity|].
    intros k Hid Hurl. unfold Background.with_tab_info.
    rewrite !lookup_insert_ne by congruence. reflexivity.
  - intros Hvalid. rewrite Hvalid. reflexivity.
Qed.

Lemma record_reaches_worker_witness :
  capturedEvents
    (relay
       (Eff.final_state
          (Content.sendEvent Samples.no_serializer Samples.click_data
             Samples.fresh_page))
       Samples.from_tab (Background.loaded true))
  = [Background.with_tab_info Samples.click_data Samples.from_tab]
  /\ relay
       (Eff.final_state
          (Content.sendEvent Samples.no_serializer Samples.click_data
             Samples.orphaned_page))
       Samples.from_tab (Background.loaded true)
     = Background.loaded true.
Proof.
  split.
  - apply (proj1 (record_reaches_worker Samples.no_serializer Samples.click_data
                    Samples.fresh_page Samples.from_tab (Background.loaded true)
                    eq_refl)).
    reflexivity.
  - apply (proj2 (record_reaches_worker Samples.no_serializer Samples.click_data
                    Samples.orphaned_page Samples.from_tab (Background.loaded true)
                    eq_refl)).
    reflexivity.
Defined.

(** ** Positions that tell siblings apart *)

Lemma to_int_not_nil (z : Z) :
  Z.to_int z <> Decimal.Pos Decimal.Nil /\ Z.to_int z <> Decimal.Neg Decimal.Nil.
Proof.
  destruct z as [|q|q]; simpl; split; try discriminate;
    intros [= Hnil]; exact (DecimalPos.Unsigned.to_uint_nonnil q Hnil).
Qed.

Lemma of_int_inj (x y : Z) : JsString.of_int x = JsString.of_int y -> x = y.
Proof.
  unfold JsString.of_int. intros Heq.
  apply (f_equal NilZero.int_of_string) in Heq.
  destruct (to_int_not_nil x) as [Hx1 Hx2], (to_int_not_nil y) as [Hy1 Hy2].
  rewrite !NilZero.isi in Heq by assumption.
  injection Heq as Heq. apply DecimalZ.to_int_inj. exact Heq.
Qed.

Lemma append_cancel_l (s a b : string) : s ++ a = s ++ b -> a = b.
Proof.
  induction s as [|c s IH]; [auto|]. rewrite !append_cons. intros [= Heq]. auto.
Qed.

Lemma append_cancel_r (a b : string) (c : ascii) :
  a ++ String c "" = b ++ String c "" -> a = b.
Proof.
  revert b. induction a as [|x a IH]; intros [|y b]; rewrite ?append_cons,
    ?append_nil_l; intros Heq.
  - reflexivity.
  - injection Heq as _ Heq. destruct b; discriminate Heq.
  - injection Heq as _ Heq. destruct a; discriminate Heq.
  - injection Heq as -> Heq. f_equal. apply IH. exact Heq.
Qed.

Lemma indexOf_found (l : list child) (x : nat) :
  (exists c, In c l /\ child_node c = x) ->
  exists c, nth_error l (Z.to_nat (Content.indexOf l x)) = Some c /\
            child_node c = x /\ (0 <= Content.indexOf l x)%Z.
Proof.
  induction l as [|d l IH]; intros (c & Hin & Hc); [destruct Hin|].
  simpl. destruct (Nat.eqb_spec (child_node d) x) as [Hd|Hd].
  - exists d. simpl. auto with zarith.
  - destruct Hin as [->|Hin]; [contradiction|].
    destruct (IH (ex_intro _ c (conj Hin Hc))) as (c' & Hnth & Hc' & Hpos).
    destruct (Z.ltb_spec (Content.indexOf l x) 0) as [Hneg|_]; [lia|].
    exists c'. split; [|split; [exact Hc' | lia]].
    rewrite Z2Nat.inj_add by lia. rewrite Nat.add_comm. simpl. exact Hnth.
Qed.

(** X20. Two different children of one parent that have the same tag name,
    no id and no class never get the same selector: their positions among
    the same-tag children differ. *)
Theorem nth_child_tells_siblings_apart (e1 e2 : element) (p : parent) :
  tagName e1 <> "" ->
  tagName e2 = tagName e1 ->
  elId e1 = "" -> elId e2 = "" ->
  no_class_tokens (className e1) -> no_class_tokens (className e2) ->
  parentElement e1 = Some p -> parentElement e2 = Some p ->
  In (mkChild (node e1) (tagName e1)) (children p) ->
  In (mkChild (node e2) (tagName e2)) (children p) ->
  node e1 <> node e2 ->
  Content.generateSelector (Some e1) <> Content.generateSelector (Some e2).
Proof.
  intros Htag Hsame Hid1 Hid2 Hcls1 Hcls2 Hp1 Hp2 Hin1 Hin2 Hnodes Heq.
  rewrite (generateSelector_fallback e1), (generateSelector_fallback e2) in Heq
    by (try assumption; rewrite Hsame; exact Htag).
  rewrite Hp1, Hp2, Hsame in Heq.
  assert (same_tag e2 = same_tag e1) as Htags
    by (unfold same_tag; rewrite Hsame; reflexivity).
  rewrite Htags in Heq. injection Heq as Heq.
  apply append_cancel_l, append_cancel_l in Heq.
  apply append_cancel_r, of_int_inj in Heq.
  set (l := List.filter (same_tag e1) (children p)) in *.
  assert (Content.indexOf l (node e1) = Content.indexOf l (node e2)) as Hidx by lia.
  destruct (indexOf_found l (node e1)) as (c1 & Hnth1 & Hc1 & _).
  { exists (mkChild (node e1) (tagName e1)). split; [|reflexivity].
    apply List.filter_In. split; [exact Hin1|].
    unfold same_tag. simpl. apply String.eqb_refl. }
  destruct (indexOf_found l (node e2)) as (c2 & Hnth2 & Hc2 & _).
  { exists (mkChild (node e2) (tagName e2)). split; [|reflexivity].
    apply List.filter_In. split; [exact Hin2|].
    unfold same_tag. simpl. rewrite Hsame. apply String.eqb_refl. }
  rewrite Hidx, Hnth2 in Hnth1. injection Hnth1 as ->.
  apply Hnodes. congruence.
Qed.

Lemma nth_child_tells_siblings_apart_witness :
  Content.generateSelector (Some (Samples.plain 1 "LI" "" "" "one" (Some Samples.list_items)))
  <> Content.generateSelector (Some Samples.second_item).
Proof.
  apply (nth_child_tells_siblings_apart
           (Samples.plain 1 "LI" "" "" "one" (Some Samples.list_items))
           Samples.second_item Samples.list_items);
    try reflexivity; try discriminate.
  - left. reflexivity.
  - right. right. left. reflexivity.
Defined.

(** X21. When a name of the form's data set makes a valid name test and
    the first element of that name inside the form is password-typed, the
    form values that [getFormValues] returns hold the marker under the
    name: for the password itself and for any other field sharing the
    name. *)
Theorem getFormValues_marker
    (selector_engine : string -> form -> option (option field))
    (f : form) (fld : field) (n v : string) (x : form_value)
    (values : gmap string form_value) (p p' : page) :
  In (n, x) (formData_entries f) ->
  n <> "__proto__" ->
  quoted_name n = Equals v ->
  first_named f v = Some fld ->
  Content.is_password (field_type fld) = true ->
  Content.getFormValues selector_engine f p = Eff.Returned values p' ->
  values !! n = Some (TextValue "[REDACTED]").
Proof.
  intros Hin Hproto Hv Hfirst Hpw Hrun.
  apply getFormValues_returned in Hrun as (_ & _ & Hlookup).
  rewrite (Hlookup _ Hproto). unfold query_outcome. rewrite Hv. simpl.
  rewrite Hfirst. simpl. rewrite Hpw.
  destruct (last_value n (formData_entries f)) eqn:Hlast; [reflexivity|].
  apply last_value_none in Hlast. rewrite Forall_forall in Hlast.
  exfalso. apply (Hlast (n, x));
    [apply list_elem_of_In; exact Hin | reflexivity].
Qed.

Lemma getFormValues_marker_witness :
  exists values,
    Content.getFormValues Samples.no_engine
      (mkForm (Samples.plain 4 "FORM" "login" "" "" None)
         [ Samples.control "secret" "password" "hunter2";
           Samples.control "secret" "text" "hint" ])
      Samples.fresh_page = Eff.Returned values Samples.fresh_page /\
    values !! "secret" = Some (TextValue "[REDACTED]").
Proof.
  eexists. split; [reflexivity|].
  apply (getFormValues_marker Samples.no_engine
           (mkForm (Samples.plain 4 "FORM" "login" "" "" None)
              [ Samples.control "secret" "password" "hunter2";
                Samples.control "secret" "text" "hint" ])
           (Samples.control "secret" "password" "hunter2")
           "secret" "secret" (TextValue "hint")
           _ Samples.fresh_page Samples.fresh_page);
    try reflexivity; try discriminate.
  right. left. reflexivity.
Defined.

(** ** A submit that throws *)

Lemma assign_entries_invalid
    (selector_engine : string -> form -> option (option field))
    (f : form) (earlier later : list (string * form_value)) (n : string)
    (x : form_value) (values : gmap string form_value) (p : page) :
  Forall (fun entry => resolves entry.1) earlier ->
  quoted_name n = Invalid ->
  Content.assign_entries selector_engine f (earlier ++ (n, x) :: later) values p
    = Eff.Thrown "SyntaxError" p.
Proof.
  intros Hearlier Hn. revert values.
  induction Hearlier as [|[k y] earlier [v Hk] _ IH]; intros values.
  - simpl app. rewrite assign_entries_cons. unfold query_outcome.
    rewrite Hn. reflexivity.
  - change (((k, y) :: earlier) ++ (n, x) :: later)%list
      with ((k, y) :: (earlier ++ (n, x) :: later))%list.
    rewrite assign_entries_cons. simpl in Hk.
    rewrite (query_outcome_resolved _ _ _ _ Hk). apply IH.
Qed.

(** X22. A submit is lost when the name of an entry makes an invalid
    selector, as a name with a line break does, or one with a double quote
    before an ordinary character: [querySelector] throws, the handler
    throws with it, and the page is as before, nothing having gone out on
    the console, the buffer or runtime messaging. *)
Theorem handleSubmit_invalid_name
    (selector_engine : string -> form -> option (option field))
    (JSON_stringify : gmap string jsval -> string)
    (f : form) (p : page) (earlier later : list (string * form_value))
    (n : string) (x : form_value) :
  formData_entries f = (earlier ++ (n, x) :: later)%list ->
  Forall (fun entry => resolves entry.1) earlier ->
  quoted_name n = Invalid ->
  Content.handleSubmit selector_engine JSON_stringify f p
    = Eff.Thrown "SyntaxError" p /\
  forall rec,
    ~ delivers JSON_stringify
        (Content.handleSubmit selector_engine JSON_stringify f) p rec.
Proof.
  intros Hentries Hearlier Hn.
  assert (Content.handleSubmit selector_engine JSON_stringify f p
          = Eff.Thrown "SyntaxError" p) as Hthrown.
  { apply (handleSubmit_thrown _ _ _ _ p "SyntaxError").
    unfold Content.getFormValues. rewrite Hentries.
    apply assign_entries_invalid; assumption. }
  split; [exact Hthrown|].
  intros rec (p' & Hrun & _). rewrite Hthrown in Hrun. discriminate Hrun.
Qed.

Lemma handleSubmit_invalid_name_witness :
  Content.handleSubmit Samples.no_engine Samples.no_serializer
    (mkForm (Samples.plain 4 "FORM" "" "" "" None)
       [ Samples.control "user" "text" "alice";
         Samples.control ("a" ++ double_quote ++ "b") "text" "x" ])
    Samples.fresh_page
  = Eff.Thrown "SyntaxError" Samples.fresh_page.
Proof.
  apply (handleSubmit_invalid_name Samples.no_engine Samples.no_serializer
           (mkForm (Samples.plain 4 "FORM" "" "" "" None)
              [ Samples.control "user" "text" "alice";
                Samples.control ("a" ++ double_quote ++ "b") "text" "x" ])
           Samples.fresh_page [("user", TextValue "alice")] []
           ("a" ++ double_quote ++ "b") (TextValue "x")).
  - reflexivity.
  - repeat constructor. eexists. reflexivity.
  - reflexivity.
Defined.

(** ** Records of empty fields and of password fields *)

(** C10, as stated, fails: the record of an empty text field cannot be
    the record of a password field, whose [type] attribute it does not
    have. *)
Lemma empty_field_record_differs :
  ~ (exists pw t,
       elType pw = Some "password" /\
       attributes pw !! "type" = Some t /\
       JsString.toLowerCase t = "password" /\
       Content.createLogEntry Samples.fresh_page "input" pw
         [("value", Content.getInputValue pw)]
       = Content.createLogEntry Samples.fresh_page "input"
           Samples.empty_text_input
           [("value", Content.getInputValue Samples.empty_text_input)]).
Proof.
  intros (pw & t & _ & Htype & Hlower & Hsame).
  apply (f_equal (fun rec : gmap string jsval => rec !! "attributes")) in Hsame.
  unfold Content.createLogEntry in Hsame. rewrite !obj_literal_lookup in Hsame.
  simpl in Hsame. injection Hsame as Hbags.
  apply (f_equal (fun bag : gmap string string => bag !! "type")) in Hbags.
  rewrite !getAttributes_whitelisted in Hbags.
  rewrite Htype in Hbags. vm_compute in Hbags.
  injection Hbags as ->. vm_compute in Hlower. discriminate Hlower.
Qed.
